(** * Hierarchical_structure: the office / department / staff store

    A shallow embedding of [main.py] (class [DatabaseManager]): the node
    tuples, the synthetic generator [_create_random_data], the bulk load
    ([import_json], [random_fill], [make_data]), the recursive query of
    [_get_staffs_by_staff_id] and [delete_all_data], over a small model
    of the one relation the program uses and of the transaction of its
    connection. *)

From Stdlib Require Import ZArith List String Ascii Bool Lia Sorted.
From Stdlib Require Import DecimalString.
From Stdlib Require DecimalFacts DecimalPos.
Import ListNotations.
Open Scope string_scope.
Open Scope list_scope.
Open Scope Z_scope.

(** ** The node tuple *)

(** One row of [offices], in the order of the insert statement:
    [(id, parent_id, name, type)].  [parent_id] is [None] for Python's
    [None] / SQL's NULL. *)
Record Node : Type := mkNode
  { id : Z;
    parent_id : option Z;
    name : string;
    type : Z }.

Definition opt_eqb (a b : option Z) : bool :=
  match a, b with
  | Some x, Some y => x =? y
  | None, None => true
  | _, _ => false
  end.

(** ** What Python sees of a call *)

(** The exceptions of the model: those of the statements this program
    sends, and Python's own [TypeError]. *)
Inductive pg_error : Type :=
  | UndefinedTable
  | UniqueViolation (key : Z)
  | NumericValueOutOfRange
  | StringDataRightTruncation
  | CardinalityViolation
  | DuplicateTable
  | TypeError.

Inductive outcome (A : Type) : Type :=
  | Returned (a : A)
  | Raised (e : pg_error).
Arguments Returned {A} a.
Arguments Raised {A} e.

Definition obind {A B} (m : outcome A) (k : A -> outcome B) : outcome B :=
  match m with
  | Returned a => k a
  | Raised e => Raised e
  end.

Notation "x <- m ;;; k" := (obind m (fun x => k))
  (at level 61, m at next level, right associativity).

(** A line written by [print]. *)
Inductive line : Type :=
  | Text (s : string)
  | ErrorLine (e : pg_error).

(** ** The relation and the connection *)

Module Store.

Definition idx_offices_type_parent_id : string := "idx_offices_type_parent_id".

(** The table [offices] once it exists: its rows in heap order and the
    names of its indexes. *)
Record table : Type := mkTable
  { rows : list Node;
    indexes : list string }.

(** The catalog: [None] while no table [offices] exists. *)
Definition database : Type := option table.

(** A psycopg2 connection without autocommit: [committed] is what the
    last commit left, [pending] what the open transaction sees. *)
Record connection : Type := mkConn
  { committed : database;
    pending : database }.

Definition commit (c : connection) : connection :=
  {| committed := pending c; pending := pending c |}.

Definition rollback (c : connection) : connection :=
  {| committed := committed c; pending := committed c |}.

Definition set_pending (d : database) (c : connection) : connection :=
  {| committed := committed c; pending := d |}.

(** [SELECT EXISTS (SELECT FROM information_schema.tables
    WHERE table_name = 'offices')] *)
Definition table_exists (d : database) : bool :=
  match d with Some _ => true | None => false end.

(** [CREATE TABLE offices (id SERIAL PRIMARY KEY, name VARCHAR(255),
    parent_id INTEGER, type INTEGER)] *)
Definition create_table (d : database) : outcome database :=
  match d with
  | Some _ => Raised DuplicateTable
  | None => Returned (Some {| rows := []; indexes := [] |})
  end.

(** [CREATE INDEX idx_offices_type_parent_id ON offices (type,parent_id)] *)
Definition create_index (d : database) : outcome database :=
  match d with
  | None => Raised UndefinedTable
  | Some t =>
      if existsb (String.eqb idx_offices_type_parent_id) (indexes t)
      then Raised DuplicateTable
      else Returned
             (Some {| rows := rows t;
                      indexes := indexes t ++ [idx_offices_type_parent_id] |})
  end.

Definition int4_ok (z : Z) : bool := (-2147483648 <=? z) && (z <=? 2147483647).

(** Characters of a UTF-8 string: the bytes that are not continuation
    bytes. *)
Fixpoint char_length (s : string) : nat :=
  match s with
  | EmptyString => O
  | String a s' =>
      let b := Z.of_nat (nat_of_ascii a) in
      if Z.land b 192 =? 128 then char_length s' else S (char_length s')
  end.

(** The column types: [id SERIAL PRIMARY KEY], [name VARCHAR(255)],
    [parent_id INTEGER], [type INTEGER]. *)
Definition column_error (r : Node) : option pg_error :=
  if negb (int4_ok (id r) && int4_ok (type r)
           && match parent_id r with Some p => int4_ok p | None => true end)
  then Some NumericValueOutOfRange
  else if (255 <? char_length (name r))%nat then Some StringDataRightTruncation
  else None.

(** [INSERT INTO offices (id, parent_id, name, type) VALUES (%s, %s, %s, %s)]
    for one tuple. *)
Definition insert (r : Node) (d : database) : outcome database :=
  match d with
  | None => Raised UndefinedTable
  | Some t =>
      match column_error r with
      | Some e => Raised e
      | None =>
          if existsb (fun x => id x =? id r) (rows t)
          then Raised (UniqueViolation (id r))
          else Returned (Some {| rows := rows t ++ [r]; indexes := indexes t |})
      end
  end.

(** [DELETE FROM offices] *)
Definition delete_all (d : database) : outcome database :=
  match d with
  | None => Raised UndefinedTable
  | Some t => Returned (Some {| rows := []; indexes := indexes t |})
  end.

Definition ids (d : database) : list Z :=
  match d with
  | None => []
  | Some t => map id (rows t)
  end.

End Store.

(** ** The query of [_get_staffs_by_staff_id] *)

Module Query.

(** A row of the CTE [ancestors]: [id, parent_id, type]. *)
Record ancestor : Type := mkAnc
  { a_id : Z;
    a_parent_id : option Z;
    a_type : Z }.

Definition project (r : Node) : ancestor :=
  {| a_id := id r; a_parent_id := parent_id r; a_type := type r |}.

(** [SELECT id, parent_id, type FROM offices WHERE id = %s] *)
Definition seed (tbl : list Node) (k : Z) : list ancestor :=
  map project (filter (fun r => id r =? k) tbl).

(** [SELECT offices.id, offices.parent_id, offices.type FROM offices
    JOIN ancestors ON ancestors.parent_id = offices.id], the reference
    to [ancestors] being the working table [w]. *)
Definition recursive_term (tbl : list Node) (w : list ancestor) : list ancestor :=
  flat_map
    (fun r =>
       flat_map
         (fun a => if opt_eqb (a_parent_id a) (Some (id r)) then [project r] else [])
         w)
    tbl.

(** [WITH RECURSIVE ... UNION ALL]: the rows of the working table, then
    those of the recursive term on it, until a working table is empty;
    [n] bounds the number of working tables evaluated. *)
Fixpoint recursive_union (n : nat) (tbl : list Node) (w : list ancestor)
  : list ancestor :=
  match n with
  | O => []
  | S n' =>
      match w with
      | [] => []
      | _ :: _ => w ++ recursive_union n' tbl (recursive_term tbl w)
      end
  end.

(** The first [n] rows of [ancestors]; PostgreSQL evaluates a WITH query
    only as far as the parent query fetches rows, and every working
    table but the last has a row, so [n] working tables give them. *)
Definition ancestors (n : nat) (tbl : list Node) (k : Z) : list ancestor :=
  firstn n (recursive_union n tbl (seed tbl k)).

(** A subquery used as an expression: NULL for no row, the value for
    one, an error for more. *)
Definition scalar (l : list Z) : outcome (option Z) :=
  match l with
  | [] => Returned None
  | [x] => Returned (Some x)
  | _ :: _ :: _ => Raised CardinalityViolation
  end.

(** [(SELECT id FROM ancestors OFFSET 2)]: two rows skipped, and a
    second row after them already is the error, so four rows of
    [ancestors] decide it. *)
Definition office_of (tbl : list Node) (k : Z) : outcome (option Z) :=
  scalar (skipn 2 (map a_id (ancestors 4 tbl k))).

(** [SELECT id FROM offices WHERE type = 2 AND parent_id = (...)];
    a comparison with NULL selects nothing. *)
Definition descendant_department (tbl : list Node) (office : option Z) : list Z :=
  match office with
  | None => []
  | Some o =>
      map id (filter (fun r => (type r =? 2) && opt_eqb (parent_id r) (Some o)) tbl)
  end.

(** [SELECT name FROM offices WHERE type = 3 AND parent_id IN
    (SELECT id FROM descendant_department)] *)
Definition descendant_staff (tbl : list Node) (departments : list Z) : list string :=
  map name
    (filter
       (fun r =>
          (type r =? 3)
          && match parent_id r with
             | Some p => existsb (Z.eqb p) departments
             | None => false
             end)
       tbl).

(** The whole statement, [SELECT name FROM descendant_staff], on the
    rows of [offices]; each result row is the 1-tuple of a name. *)
Definition select_staffs (tbl : list Node) (k : Z) : outcome (list string) :=
  o <- office_of tbl k ;;;
  Returned (descendant_staff tbl (descendant_department tbl o)).

Definition execute (d : Store.database) (k : Z) : outcome (list string) :=
  match d with
  | None => Raised UndefinedTable
  | Some t => select_staffs (Store.rows t) k
  end.

End Query.

(** ** The generator [_create_random_data] *)

(** What the generator does, in order, while it is consumed: a progress
    line on stdout or a tuple handed to the consumer. *)
Inductive event : Type :=
  | Print (s : string)
  | Yield (n : Node).

Fixpoint yielded (es : list event) : list Node :=
  match es with
  | [] => []
  | Print _ :: es' => yielded es'
  | Yield n :: es' => n :: yielded es'
  end.

(** [f"{z}"] for an integer. *)
Definition dec (z : Z) : string := NilZero.string_of_int (Z.to_int z).

Section Generator.

(** The state of Python's [random] module and its [randint]. *)
Variable rng : Type.
Variable randint : Z -> Z -> rng -> Z * rng.

(** The locals that live across the loops: the counter [i] and the
    random state. *)
Record locals : Type := mkLocals
  { i : Z;
    random : rng }.

(** A piece of the generator's body: from the locals, a value, the
    events of the piece and the locals after it. *)
Definition Gen (A : Type) : Type := locals -> A * list event * locals.

Definition ret {A} (a : A) : Gen A := fun s => (a, [], s).

Definition bind {A B} (m : Gen A) (k : A -> Gen B) : Gen B :=
  fun s =>
    let '(a, es1, s1) := m s in
    let '(b, es2, s2) := k a s1 in
    (b, es1 ++ es2, s2).

(** [i += 1], giving the new [i]. *)
Definition incr : Gen Z :=
  fun s => (i s + 1, [], {| i := i s + 1; random := random s |}).

(** [random.randint(lo, hi)] *)
Definition rand (lo hi : Z) : Gen Z :=
  fun s =>
    let '(v, g) := randint lo hi (random s) in
    (v, [], {| i := i s; random := g |}).

Definition yield (n : Node) : Gen unit := fun s => (tt, [Yield n], s).

Definition print (t : string) : Gen unit := fun s => (tt, [Print t], s).

(** [for k in range(first, first + n): body k] *)
Fixpoint for_range (first n : nat) (body : nat -> Gen unit) : Gen unit :=
  match n with
  | O => ret tt
  | S n' => bind (body first) (fun _ => for_range (S first) n' body)
  end.

Notation "x <- m ;; k" := (bind m (fun x => k))
  (at level 61, m at next level, right associativity).
Notation "m ;; k" := (bind m (fun _ => k))
  (at level 61, right associativity).

Definition staff_body (department_id : Z) (staff_index : nat) : Gen unit :=
  staff_id <- incr ;;
  r <- rand 1 10000000000 ;;
  yield (mkNode staff_id (Some department_id) ("Сотрудник_" ++ dec r)%string 3).

Definition department_body (office_id : Z) (department_index : nat) : Gen unit :=
  department_id <- incr ;;
  r <- rand 1 10000000000 ;;
  yield (mkNode department_id (Some office_id) ("Отдел_" ++ dec r)%string 2) ;;
  n <- rand 30 1000 ;;
  for_range 0 (Z.to_nat n) (staff_body department_id).

Definition office_body (office_index : nat) : Gen unit :=
  print (dec (Z.of_nat office_index) ++ "/100")%string ;;
  office_id <- incr ;;
  r <- rand 1 10000000000 ;;
  yield (mkNode office_id None ("Офис_" ++ dec r)%string 1) ;;
  n <- rand 40 80 ;;
  for_range 0 (Z.to_nat n) (department_body office_id).

(** The events of the whole generator, started with random state [g]:
    [i = 0], then the loop over [range(100)]. *)
Definition _create_random_data (g : rng) : list event :=
  snd (fst (for_range 0 100 office_body {| i := 0; random := g |})).

End Generator.

Arguments i {rng} l.
Arguments random {rng} l.
Arguments ret {rng A} a.
Arguments bind {rng A B} m k.
Arguments incr {rng}.
Arguments rand {rng} randint lo hi.
Arguments yield {rng} n.
Arguments print {rng} t.
Arguments for_range {rng} first n body.
Arguments staff_body {rng} randint department_id staff_index.
Arguments department_body {rng} randint office_id department_index.
Arguments office_body {rng} randint office_index.
Arguments _create_random_data {rng} randint g.

(** ** The methods of [DatabaseManager] *)

(** A piece of a method: from the connection, how it ended, the
    connection then and the lines printed. *)
Definition Py (A : Type) : Type :=
  Store.connection -> outcome A * Store.connection * list line.

Definition pret {A} (a : A) : Py A := fun c => (Returned a, c, []).

Definition praise {A} (e : pg_error) : Py A := fun c => (Raised e, c, []).

Definition pbind {A B} (m : Py A) (k : A -> Py B) : Py B :=
  fun c =>
    let '(o, c1, out1) := m c in
    match o with
    | Returned a => let '(o2, c2, out2) := k a c1 in (o2, c2, out1 ++ out2)
    | Raised e => (Raised e, c1, out1)
    end.

(** [try: body / except Exception as e: handler e] *)
Definition try_except {A} (body : Py A) (handler : pg_error -> Py A) : Py A :=
  fun c =>
    let '(o, c1, out1) := body c in
    match o with
    | Returned a => (Returned a, c1, out1)
    | Raised e => let '(o2, c2, out2) := handler e c1 in (o2, c2, out1 ++ out2)
    end.

(** [cursor.execute] of a statement that changes the database, inside
    the open transaction. *)
Definition execute (f : Store.database -> outcome Store.database) : Py unit :=
  fun c =>
    match f (Store.pending c) with
    | Returned d => (Returned tt, Store.set_pending d c, [])
    | Raised e => (Raised e, c, [])
    end.

(** [cursor.execute] of a query and the fetch of its result. *)
Definition fetch {A} (q : Store.database -> outcome A) : Py A :=
  fun c => (q (Store.pending c), c, []).

Definition conn_commit : Py unit := fun c => (Returned tt, Store.commit c, []).

Definition conn_rollback : Py unit := fun c => (Returned tt, Store.rollback c, []).

Definition py_print (l : line) : Py unit := fun c => (Returned tt, c, [l]).

Notation "x <~ m ;; k" := (pbind m (fun x => k))
  (at level 61, m at next level, right associativity).
Notation "m ;;~ k" := (pbind m (fun _ => k))
  (at level 61, right associativity).

(** [cursor.executemany(sql, data)] on an iterator: it is advanced one
    tuple at a time, what it prints on the way is printed, each tuple
    is inserted as it comes and the first failure ends the call. *)
Fixpoint executemany (data : list event) : Py unit :=
  match data with
  | [] => pret tt
  | Print s :: data' => py_print (Text s) ;;~ executemany data'
  | Yield r :: data' => execute (Store.insert r) ;;~ executemany data'
  end.

(** [import_json], on the records of the file, each already the four
    values [id, parent_id, name, type] in this order. *)
Definition import_json (file : list Node) : Py unit :=
  executemany (map Yield file) ;;~
  conn_commit.

Definition random_fill {rng : Type} (randint : Z -> Z -> rng -> Z * rng) (g : rng)
  : Py unit :=
  executemany (_create_random_data randint g) ;;~
  conn_commit.

(** The first half of the [try] block of [make_data]: the catalog is
    asked for the table; table and index are created in one [execute]
    and committed when it is absent. *)
Definition ensure_schema : Py unit :=
  table_exists <~ fetch (fun d => Returned (Store.table_exists d)) ;;
  if negb table_exists
  then
    execute (fun d => d1 <- Store.create_table d ;;; Store.create_index d1) ;;~
    conn_commit ;;~
    py_print (Text "База данных успешно создана")
  else pret tt.

(** The handler all three methods share: [self.conn.rollback()], then
    [print(f"Error: {e}")]. *)
Definition report (e : pg_error) : Py unit :=
  conn_rollback ;;~ py_print (ErrorLine e).

(** The [try] block of [make_data(filepath)]; [source] is the content
    of the file when a path is given, [g] the random state otherwise
    used. *)
Definition make_data_try {rng : Type} (randint : Z -> Z -> rng -> Z * rng)
           (source : option (list Node)) (g : rng) : Py unit :=
  ensure_schema ;;~
  match source with
  | Some file => import_json file
  | None => random_fill randint g
  end.

Definition make_data {rng : Type} (randint : Z -> Z -> rng -> Z * rng)
           (source : option (list Node)) (g : rng) : Py unit :=
  try_except (make_data_try randint source g) report.

Definition _get_staffs_try (staff_id : Z) : Py (option (list string)) :=
  staffs <~ fetch (fun d => Query.execute d staff_id) ;;
  pret (Some staffs).

(** [_get_staffs_by_staff_id]: the rows of [fetchall], or [None] when
    the [except] branch was taken and the method fell off its end. *)
Definition _get_staffs_by_staff_id (staff_id : Z) : Py (option (list string)) :=
  try_except (_get_staffs_try staff_id) (fun e => report e ;;~ pret None).

Definition newline : string := String (ascii_of_nat 10) EmptyString.

(** [print_staffs]: [map] over [None] is a [TypeError], and nothing
    catches it here. *)
Definition print_staffs (staff_id : Z) : Py unit :=
  staff_list <~ _get_staffs_by_staff_id staff_id ;;
  match staff_list with
  | Some l => py_print (Text (String.concat newline l))
  | None => praise TypeError
  end.

Definition delete_all_try : Py unit :=
  execute Store.delete_all ;;~ conn_commit.

Definition delete_all_data : Py unit :=
  try_except delete_all_try report.


(** The three parts of what a method call gives. *)
Definition result {A} (r : outcome A * Store.connection * list line) : outcome A :=
  fst (fst r).
Definition conn {A} (r : outcome A * Store.connection * list line) : Store.connection :=
  snd (fst r).
Definition stdout {A} (r : outcome A * Store.connection * list line) : list line :=
  snd r.


(** ** Forests *)

(** The scenario of the specification: one office, two departments,
    three staff. *)
Definition six_node_forest : list Node :=
  [ mkNode 1 None "Office" 1;
    mkNode 2 (Some 1) "Department 2" 2;
    mkNode 3 (Some 1) "Department 3" 2;
    mkNode 4 (Some 2) "A" 3;
    mkNode 5 (Some 2) "B" 3;
    mkNode 6 (Some 3) "C" 3 ].

(** A fresh database: no table [offices] yet. *)
Definition empty_connection : Store.connection :=
  {| Store.committed := None; Store.pending := None |}.

(** [l] has a node with id [k] and type [t]. *)
Definition has_node (l : list Node) (k t : Z) : bool :=
  existsb (fun p => (id p =? k) && (type p =? t)) l.

(** The parent rule of the three levels, the parent looked up in [l]:
    an office has none, a department has an office, a staff member has a
    department. *)
Definition parent_ok (l : list Node) (n : Node) : bool :=
  if type n =? 1 then
    match parent_id n with None => true | Some _ => false end
  else if type n =? 2 then
    match parent_id n with Some p => has_node l p 1 | None => false end
  else if type n =? 3 then
    match parent_id n with Some p => has_node l p 2 | None => false end
  else false.

(** A well-formed forest: unique ids, every node of one of the three
    types and with a parent of the enclosing type in the forest. *)
Definition well_formed (l : list Node) : Prop :=
  NoDup (map id l) /\ Forall (fun n => parent_ok l n = true) l.

(** Every node's parent is among the nodes before it; [seen] holds the
    nodes already passed. *)
Fixpoint parents_first (seen l : list Node) : bool :=
  match l with
  | [] => true
  | n :: l' => parent_ok seen n && parents_first (n :: seen) l'
  end.

(** The values a counter takes in [n] increments from [lo]:
    [lo + 1, ..., lo + n]. *)
Fixpoint counter_values (lo : Z) (n : nat) : list Z :=
  match n with
  | O => []
  | S n' => (lo + 1) :: counter_values (lo + 1) n'
  end.

(** The offices in a sequence of nodes. *)
Definition offices_in (l : list Node) : list Node :=
  filter (fun n => type n =? 1) l.

(** The nodes of type [t] in [l] whose parent is [q]. *)
Definition children (t : Z) (l : list Node) (q : Z) : list Node :=
  filter (fun n => (type n =? t) && opt_eqb (parent_id n) (Some q)) l.

Definition departments_of (l : list Node) (o : Z) : list Node := children 2 l o.

Definition staff_of (l : list Node) (d : Z) : list Node := children 3 l d.

(** The ids of [out] are the values of a counter that went from [lo] to
    [hi], one increment per node. *)
Definition numbered (lo : Z) (out : list Node) (hi : Z) : Prop :=
  hi = lo + Z.of_nat (List.length out) /\
  map id out = counter_values lo (List.length out).

(** A [randint] to run the generator with: a linear congruential state. *)
Definition lcg_randint (lo hi : Z) (g : Z) : Z * Z :=
  let g' := (g * 1103515245 + 12345) mod 2147483648 in
  (lo + g' mod (hi - lo + 1), g').

(** The names of all staff across the departments of office [o], as the
    specification words it: the staff whose parent is a department whose
    parent is [o]. *)
Definition colleagues (l : list Node) (o : Z) : list string :=
  map name
    (filter
       (fun n =>
          (type n =? 3)
          && existsb
               (fun d =>
                  (type d =? 2) && opt_eqb (parent_id d) (Some o)
                  && opt_eqb (parent_id n) (Some (id d)))
               l)
       l).

(** The store after [make_data] loaded the records [l] into a fresh
    database. *)
Definition loaded (l : list Node) : Store.connection :=
  conn (make_data lcg_randint (Some l) 0 empty_connection).

(** Records that break the key of [offices]: the id 1 twice. *)
Definition duplicate_ids : list Node :=
  [ mkNode 1 None "x" 1; mkNode 1 None "y" 1 ].

(** A chain of four levels, on which [OFFSET 2] leaves two rows. *)
Definition four_levels : list Node :=
  [ mkNode 1 None "a" 1; mkNode 2 (Some 1) "b" 2;
    mkNode 3 (Some 2) "c" 3; mkNode 4 (Some 3) "d" 3 ].

(** ** The shape of what the generator yields *)

(** [n] consecutive pieces, each described by [B] between the counter
    before it and the counter after it. *)
Inductive Run (B : Z -> list Node -> Z -> Prop) : nat -> Z -> list Node -> Z -> Prop :=
  | Run_nil (lo : Z) : Run B 0 lo [] lo
  | Run_cons (n : nat) (lo mid hi : Z) (o1 o2 : list Node) :
      B lo o1 mid -> Run B n mid o2 hi -> Run B (S n) lo (o1 ++ o2) hi.

(** What one pass of each loop body yields, the counter being [lo]
    before and [hi] after. *)
Definition staff_block (d lo : Z) (out : list Node) (hi : Z) : Prop :=
  hi = lo + 1 /\ exists nm, out = [mkNode hi (Some d) nm 3].

Definition department_block (o lo : Z) (out : list Node) (hi : Z) : Prop :=
  exists nm n outs,
    30 <= Z.of_nat n <= 1000 /\
    out = mkNode (lo + 1) (Some o) nm 2 :: outs /\
    Run (staff_block (lo + 1)) n (lo + 1) outs hi.

Definition office_block (lo : Z) (out : list Node) (hi : Z) : Prop :=
  exists nm n outd,
    40 <= Z.of_nat n <= 80 /\
    out = mkNode (lo + 1) None nm 1 :: outd /\
    Run (department_block (lo + 1)) n (lo + 1) outd hi.

(** [m], started with the counter at [lo], yields [out] and leaves the
    counter at [hi] with [R lo out hi]. *)
Definition yields {rng : Type} (m : Gen rng unit) (R : Z -> list Node -> Z -> Prop)
  : Prop :=
  forall s : locals rng,
    R (i s) (yielded (snd (fst (m s)))) (i (snd (m s))).

(** ** Loads *)

(** The progress lines among the events of the generator. *)
Fixpoint printed (es : list event) : list line :=
  match es with
  | [] => []
  | Print s :: es' => Text s :: printed es'
  | Yield _ :: es' => printed es'
  end.

Fixpoint distinct (l : list Z) : bool :=
  match l with
  | [] => true
  | x :: l' => negb (existsb (Z.eqb x) l') && distinct l'
  end.

(** The records [file] can all be inserted into a table holding [rows]:
    every value fits its column, no id is repeated and none is in the
    table already. *)
Definition loadable (rows file : list Node) : bool :=
  forallb (fun r => match Store.column_error r with None => true | Some _ => false end)
          file
  && distinct (map id file)
  && forallb (fun r => negb (existsb (fun x => id x =? id r) rows)) file.

(** The table with the rows [added] after its own. *)
Definition extended (t : Store.table) (added : list Node) : Store.table :=
  {| Store.rows := Store.rows t ++ added; Store.indexes := Store.indexes t |}.

(** A connection with nothing uncommitted, holding [d]. *)
Definition settled (d : Store.database) : Store.connection :=
  {| Store.committed := d; Store.pending := d |}.

(** The table [CREATE TABLE] and [CREATE INDEX] leave. *)
Definition new_table : Store.table :=
  {| Store.rows := []; Store.indexes := [Store.idx_offices_type_parent_id] |}.

(** What the schema step of [make_data] leaves of a database and what
    it prints: the table that was there and nothing, or the new table
    and the line that says so. *)
Definition table_after_schema (d : Store.database) : Store.table :=
  match d with
  | Some t => t
  | None => new_table
  end.

Definition lines_of_schema (d : Store.database) : list line :=
  match d with
  | Some _ => []
  | None => [Text "База данных успешно создана"]
  end.

(** The events [make_data] hands to [executemany]. *)
Definition source_events {rng : Type} (randint : Z -> Z -> rng -> Z * rng)
           (source : option (list Node)) (g : rng) : list event :=
  match source with
  | Some file => map Yield file
  | None => _create_random_data randint g
  end.

(** The key of [offices] holds on what the connection sees and on what
    is committed: no id twice. *)
Definition keyed (c : Store.connection) : Prop :=
  NoDup (Store.ids (Store.pending c)) /\ NoDup (Store.ids (Store.committed c)).

(** Nothing is uncommitted. *)
Definition clean (c : Store.connection) : Prop :=
  Store.pending c = Store.committed c.

(** A row that is its own parent, and a staff row whose department is
    in no row. *)
Definition self_parent : list Node := [ mkNode 1 (Some 1) "loop" 3 ].

Definition dangling : list Node := [ mkNode 9 (Some 8) "lonely" 3 ].

(** ** What the generator writes into a node *)

(** The prefix of the name of a node of type [t]. *)
Definition name_prefix (t : Z) : string :=
  if t =? 1 then "Офис_" else if t =? 2 then "Отдел_" else "Сотрудник_".

(** The name the generator gives: the prefix of the type, then a number
    between 1 and 10000000000 in decimal. *)
Definition generated_name (n : Node) : Prop :=
  exists r, 1 <= r <= 10000000000 /\ name n = (name_prefix (type n) ++ dec r)%string.

(** Every node [m] yields has [P]. *)
Definition all_yielded {rng : Type} (m : Gen rng unit) (P : Node -> Prop) : Prop :=
  forall s : locals rng, Forall P (yielded (snd (fst (m s)))).

(** The progress line of the office loop at index [k]. *)
Definition progress_line (k : nat) : line :=
  Text (dec (Z.of_nat k) ++ "/100")%string.

(** * Properties *)

Lemma opt_eqb_eq (a b : option Z) : opt_eqb a b = true <-> a = b.
Proof.
  destruct a as [x|], b as [y|]; simpl; try (split; congruence).
  rewrite Z.eqb_eq. split; congruence.
Qed.

Lemma opt_eqb_some (x y : Z) : opt_eqb (Some x) (Some y) = (x =? y).
Proof. reflexivity. Qed.

(** ** The query *)

Module QueryFacts.
Import Query.

Lemma filter_none {A} (f : A -> bool) (l : list A) :
  (forall x, In x l -> f x = false) -> filter f l = [].
Proof.
  induction l as [|a l IH]; simpl; intros H; [reflexivity|].
  rewrite (H a (or_introl eq_refl)). apply IH. intros x Hx. apply H. now right.
Qed.

(** With a key on [id], the row with a given id is the only one the
    selection by id finds. *)
Lemma filter_id_unique (tbl : list Node) (n : Node) :
  NoDup (map id tbl) -> In n tbl ->
  filter (fun r => id r =? id n) tbl = [n].
Proof.
  induction tbl as [|a tbl IH]; simpl; intros Hnd Hin; [contradiction|].
  inversion Hnd as [|? ? Hnotin Hnd']; subst.
  destruct Hin as [->|Hin].
  - rewrite Z.eqb_refl. f_equal. apply filter_none.
    intros x Hx. apply Z.eqb_neq. intros E. apply Hnotin.
    rewrite <- E. now apply in_map.
  - destruct (Z.eqb_spec (id a) (id n)) as [E|E].
    + exfalso. apply Hnotin. rewrite E. now apply in_map.
    + now apply IH.
Qed.

Lemma seed_missing (tbl : list Node) (k : Z) :
  ~ In k (map id tbl) -> seed tbl k = [].
Proof.
  intros H. unfold seed. rewrite filter_none; [reflexivity|].
  intros x Hx. apply Z.eqb_neq. intros E. apply H. rewrite <- E. now apply in_map.
Qed.

(** The join against a working table of one row is the selection of
    that row's parent. *)
Lemma recursive_term_single (tbl : list Node) (a : ancestor) :
  recursive_term tbl [a] =
  match a_parent_id a with
  | None => []
  | Some p => map project (filter (fun r => id r =? p) tbl)
  end.
Proof.
  unfold recursive_term.
  induction tbl as [|r tbl IH]; simpl in *.
  - now destruct (a_parent_id a).
  - rewrite IH. destruct (a_parent_id a) as [p|]; simpl; [|reflexivity].
    rewrite (Z.eqb_sym p (id r)). now destruct (id r =? p).
Qed.

Lemma descendant_staff_nil (tbl : list Node) : descendant_staff tbl [] = [].
Proof.
  unfold descendant_staff. rewrite filter_none; [reflexivity|].
  intros x _. destruct (type x =? 3), (parent_id x); reflexivity.
Qed.

Lemma select_staffs_missing (tbl : list Node) (k : Z) :
  ~ In k (map id tbl) -> select_staffs tbl k = Returned [].
Proof.
  intros H. unfold select_staffs, office_of, ancestors.
  rewrite (seed_missing _ _ H). simpl. now rewrite descendant_staff_nil.
Qed.

Lemma select_staffs_empty (k : Z) : select_staffs [] k = Returned [].
Proof. reflexivity. Qed.

(** More working tables than rows asked for change none of those rows. *)
Lemma recursive_union_prefix (tbl : list Node) (m : nat) :
  forall (n j : nat) (w : list ancestor),
    (j <= m)%nat -> (m <= n)%nat ->
    firstn j (recursive_union n tbl w) = firstn j (recursive_union m tbl w).
Proof.
  induction m as [|m IH]; intros n j w Hj Hn.
  - replace j with 0%nat by lia. reflexivity.
  - destruct n as [|n]; [lia|]. cbn [recursive_union].
    destruct w as [|a w]; [reflexivity|].
    rewrite !firstn_app. f_equal. apply IH; cbn [List.length]; lia.
Qed.

Lemma scalar_four (l : list Z) : scalar (skipn 2 l) = scalar (skipn 2 (firstn 4 l)).
Proof. destruct l as [|a [|b [|c [|d l]]]]; reflexivity. Qed.

(** The office read at [OFFSET 2] is the same however far beyond four
    working tables the recursion is run: four rows decide it. *)
Lemma office_of_any_fetch (tbl : list Node) (k : Z) (n : nat) :
  (4 <= n)%nat ->
  scalar (skipn 2 (map a_id (recursive_union n tbl (seed tbl k)))) = office_of tbl k.
Proof.
  intros Hn. unfold office_of, ancestors.
  rewrite scalar_four, firstn_map, (recursive_union_prefix tbl 4 n 4) by lia.
  reflexivity.
Qed.

End QueryFacts.

(** ** Lookups in a forest *)

Lemma has_node_In (l : list Node) (k t : Z) :
  has_node l k t = true <-> exists p, In p l /\ id p = k /\ type p = t.
Proof.
  unfold has_node. rewrite existsb_exists. split.
  - intros (p & Hp & E). apply andb_true_iff in E. destruct E as [E1 E2].
    exists p. rewrite Z.eqb_eq in E1, E2. auto.
  - intros (p & Hp & E1 & E2). exists p. split; [assumption|].
    apply andb_true_iff. now rewrite !Z.eqb_eq.
Qed.

Lemma has_node_incl (l l' : list Node) (k t : Z) :
  incl l l' -> has_node l k t = true -> has_node l' k t = true.
Proof.
  intros Hi H. apply has_node_In in H. destruct H as (p & Hp & E).
  apply has_node_In. exists p. auto.
Qed.

Lemma parent_ok_incl (l l' : list Node) (n : Node) :
  incl l l' -> parent_ok l n = true -> parent_ok l' n = true.
Proof.
  intros Hi. unfold parent_ok.
  destruct (type n =? 1); [auto|].
  destruct (type n =? 2).
  - destruct (parent_id n); [apply has_node_incl; assumption | auto].
  - destruct (type n =? 3); [|auto].
    destruct (parent_id n); [apply has_node_incl; assumption | auto].
Qed.

(** What [parent_ok] says for each of the three types. *)
Lemma parent_ok_office (l : list Node) (n : Node) :
  parent_ok l n = true -> type n = 1 -> parent_id n = None.
Proof.
  unfold parent_ok. intros H E. rewrite E in H. simpl in H.
  now destruct (parent_id n).
Qed.

Lemma parent_ok_department (l : list Node) (n : Node) :
  parent_ok l n = true -> type n = 2 ->
  exists o, In o l /\ parent_id n = Some (id o) /\ type o = 1.
Proof.
  unfold parent_ok. intros H E. rewrite E in H. simpl in H.
  destruct (parent_id n) as [p|]; [|discriminate].
  apply has_node_In in H. destruct H as (o & Ho & <- & Et). exists o. auto.
Qed.

Lemma parent_ok_staff (l : list Node) (n : Node) :
  parent_ok l n = true -> type n = 3 ->
  exists d, In d l /\ parent_id n = Some (id d) /\ type d = 2.
Proof.
  unfold parent_ok. intros H E. rewrite E in H. simpl in H.
  destruct (parent_id n) as [p|]; [|discriminate].
  apply has_node_In in H. destruct H as (d & Hd & <- & Et). exists d. auto.
Qed.

Lemma parent_ok_type (l : list Node) (n : Node) :
  parent_ok l n = true -> type n = 1 \/ type n = 2 \/ type n = 3.
Proof.
  unfold parent_ok.
  destruct (Z.eqb_spec (type n) 1); [auto|].
  destruct (Z.eqb_spec (type n) 2); [auto|].
  destruct (Z.eqb_spec (type n) 3); [auto|discriminate].
Qed.

(** ** Ancestor chains in a well-formed forest *)

Module Chains.
Import Query QueryFacts.

Lemma seed_present (tbl : list Node) (n : Node) :
  NoDup (map id tbl) -> In n tbl -> seed tbl (id n) = [project n].
Proof.
  intros Hnd Hin. unfold seed. now rewrite filter_id_unique.
Qed.

Lemma step_to_parent (tbl : list Node) (n p : Node) :
  NoDup (map id tbl) -> In p tbl -> parent_id n = Some (id p) ->
  recursive_term tbl [project n] = [project p].
Proof.
  intros Hnd Hin E. rewrite recursive_term_single. simpl. rewrite E.
  now rewrite filter_id_unique.
Qed.

Lemma step_from_root (tbl : list Node) (n : Node) :
  parent_id n = None -> recursive_term tbl [project n] = [].
Proof.
  intros E. rewrite recursive_term_single. simpl. now rewrite E.
Qed.

Section InForest.
Variable tbl : list Node.
Hypothesis Hwf : well_formed tbl.

Let Hnd : NoDup (map id tbl) := proj1 Hwf.

Lemma node_parent_ok (n : Node) : In n tbl -> parent_ok tbl n = true.
Proof.
  intros Hin. pose proof (proj2 Hwf) as Hall.
  rewrite Forall_forall in Hall. now apply Hall.
Qed.

(** From an office the chain is the office alone. *)
Lemma ancestors_office (o : Node) (m : nat) :
  In o tbl -> type o = 1 ->
  recursive_union (S m) tbl (seed tbl (id o)) = [project o].
Proof.
  intros Hin Ht.
  pose proof (parent_ok_office _ _ (node_parent_ok o Hin) Ht) as Hp.
  rewrite (seed_present _ _ Hnd Hin). simpl.
  rewrite (step_from_root _ _ Hp). now destruct m.
Qed.

(** From a department the chain is the department and its office. *)
Lemma ancestors_department (d : Node) (m : nat) :
  In d tbl -> type d = 2 ->
  exists o, In o tbl /\ type o = 1 /\ parent_id d = Some (id o) /\
            recursive_union (S (S m)) tbl (seed tbl (id d))
            = [project d; project o].
Proof.
  intros Hin Ht.
  destruct (parent_ok_department _ _ (node_parent_ok d Hin) Ht)
    as (o & Ho & Hp & Hto).
  exists o. repeat split; try assumption.
  pose proof (parent_ok_office _ _ (node_parent_ok o Ho) Hto) as Hpo.
  rewrite (seed_present _ _ Hnd Hin).
  cbn [recursive_union app].
  rewrite (step_to_parent _ _ _ Hnd Ho Hp).
  cbn [recursive_union app].
  rewrite (step_from_root _ _ Hpo). now destruct m.
Qed.

(** From a staff member the chain is the staff member, the
    department and the office. *)
Lemma ancestors_staff (s : Node) (m : nat) :
  In s tbl -> type s = 3 ->
  exists d o, In d tbl /\ type d = 2 /\ parent_id s = Some (id d) /\
              In o tbl /\ type o = 1 /\ parent_id d = Some (id o) /\
              recursive_union (S (S (S m))) tbl (seed tbl (id s))
              = [project s; project d; project o].
Proof.
  intros Hin Ht.
  destruct (parent_ok_staff _ _ (node_parent_ok s Hin) Ht)
    as (d & Hd & Hp & Htd).
  destruct (parent_ok_department _ _ (node_parent_ok d Hd) Htd)
    as (o & Ho & Hpd & Hto).
  exists d, o. repeat split; try assumption.
  pose proof (parent_ok_office _ _ (node_parent_ok o Ho) Hto) as Hpo.
  rewrite (seed_present _ _ Hnd Hin).
  cbn [recursive_union app].
  rewrite (step_to_parent _ _ _ Hnd Hd Hp).
  cbn [recursive_union app].
  rewrite (step_to_parent _ _ _ Hnd Ho Hpd).
  cbn [recursive_union app].
  rewrite (step_from_root _ _ Hpo). now destruct m.
Qed.

End InForest.

Lemma existsb_department_ids (l : list Node) (o p : Z) :
  existsb (Z.eqb p)
    (map id (filter (fun r => (type r =? 2) && opt_eqb (parent_id r) (Some o)) l))
  = existsb
      (fun d => (type d =? 2) && opt_eqb (parent_id d) (Some o)
                && opt_eqb (Some p) (Some (id d)))
      l.
Proof.
  induction l as [|d l IH]; simpl; [reflexivity|].
  destruct ((type d =? 2) && opt_eqb (parent_id d) (Some o)); simpl; now rewrite IH.
Qed.

(** The downward phase from office [o] gives the names the
    specification describes. *)
Lemma downward_colleagues (tbl : list Node) (o : Z) :
  descendant_staff tbl (descendant_department tbl (Some o)) = colleagues tbl o.
Proof.
  unfold descendant_staff, descendant_department, colleagues.
  f_equal. apply filter_ext. intros n.
  destruct (type n =? 3); [simpl|reflexivity].
  destruct (parent_id n) as [p|].
  - apply existsb_department_ids.
  - symmetry. apply not_true_is_false. intros H.
    apply existsb_exists in H. destruct H as (d & _ & H).
    now rewrite andb_false_r in H.
Qed.

End Chains.


(** ** The resolver and the store *)

Lemma get_staffs_run (k : Z) (c : Store.connection) :
  _get_staffs_by_staff_id k c =
  match Query.execute (Store.pending c) k with
  | Returned l => (Returned (Some l), c, [])
  | Raised e => (Returned None, Store.rollback c, [ErrorLine e])
  end.
Proof.
  unfold _get_staffs_by_staff_id, _get_staffs_try, try_except, pbind, fetch.
  destruct (Query.execute (Store.pending c) k); reflexivity.
Qed.

Lemma delete_all_run (c : Store.connection) :
  delete_all_data c =
  match Store.pending c with
  | Some t =>
      let d := Some {| Store.rows := []; Store.indexes := Store.indexes t |} in
      (Returned tt, {| Store.committed := d; Store.pending := d |}, [])
  | None => (Returned tt, Store.rollback c, [ErrorLine UndefinedTable])
  end.
Proof.
  unfold delete_all_data, delete_all_try, try_except, pbind, execute, Store.delete_all.
  destruct (Store.pending c); reflexivity.
Qed.

Lemma ensure_schema_run (c : Store.connection) :
  ensure_schema c =
  match Store.pending c with
  | Some _ => (Returned tt, c, [])
  | None =>
      let d := Some {| Store.rows := [];
                       Store.indexes := [Store.idx_offices_type_parent_id] |} in
      (Returned tt, {| Store.committed := d; Store.pending := d |},
       [Text "База данных успешно создана"])
  end.
Proof.
  unfold ensure_schema, pbind, fetch.
  destruct (Store.pending c) eqn:E; simpl; [reflexivity|].
  unfold execute. rewrite E. reflexivity.
Qed.

Lemma well_formed_six : well_formed six_node_forest.
Proof.
  split.
  - simpl. repeat (constructor; [simpl; intuition discriminate|]). constructor.
  - repeat constructor.
Qed.

(** C1. With the six-node forest of the specification loaded into a
    fresh store by [make_data], the resolver returns the names A, B, C
    (as rows, in this order) for each of the staff ids 4, 5 and 6, and
    no row for the id 999 that is not in the store. *)
Theorem six_node_scenario :
  forall (rng : Type) (randint : Z -> Z -> rng -> Z * rng) (g : rng),
    let load := make_data randint (Some six_node_forest) g empty_connection in
    result load = Returned tt /\
    Store.ids (Store.pending (conn load)) = [1; 2; 3; 4; 5; 6] /\
    result (_get_staffs_by_staff_id 4 (conn load)) = Returned (Some ["A"; "B"; "C"]) /\
    result (_get_staffs_by_staff_id 5 (conn load)) = Returned (Some ["A"; "B"; "C"]) /\
    result (_get_staffs_by_staff_id 6 (conn load)) = Returned (Some ["A"; "B"; "C"]) /\
    result (_get_staffs_by_staff_id 999 (conn load)) = Returned (Some []).
Proof.
  intros rng randint g load. subst load.
  repeat split; vm_compute; reflexivity.
Qed.

(** C4, as the code has it. When the table [offices] exists, the
    resolver called with an id that is in no row returns the empty list
    of rows: nothing is raised, nothing printed, the connection is as it
    was. *)
Theorem missing_id_gives_no_rows :
  forall (c : Store.connection) (k : Z),
    Store.table_exists (Store.pending c) = true ->
    ~ In k (Store.ids (Store.pending c)) ->
    _get_staffs_by_staff_id k c = (Returned (Some []), c, []).
Proof.
  intros c k Hex Hk. rewrite get_staffs_run.
  destruct (Store.pending c) as [t|]; [|discriminate]. simpl in *.
  now rewrite QueryFacts.select_staffs_missing.
Qed.

Lemma missing_id_gives_no_rows_witness :
  _get_staffs_by_staff_id 999 (loaded six_node_forest)
  = (Returned (Some []), loaded six_node_forest, []).
Proof.
  apply missing_id_gives_no_rows.
  - reflexivity.
  - vm_compute. intuition discriminate.
Defined.

(** C4 as stated fails where no table [offices] exists yet: no id occurs
    in the store, the statement raises, the handler rolls back and
    prints, and the method returns [None], which is not an empty
    sequence; [print_staffs] then ends in a [TypeError]. *)
Lemma missing_id_without_table :
  ~ In 999 (Store.ids (Store.pending empty_connection)) /\
  _get_staffs_by_staff_id 999 empty_connection
  = (Returned None, empty_connection, [ErrorLine UndefinedTable]) /\
  result (_get_staffs_by_staff_id 999 empty_connection) <> Returned (Some []) /\
  result (print_staffs 999 empty_connection) = Raised TypeError.
Proof.
  repeat split; try reflexivity.
  - simpl. tauto.
  - vm_compute. discriminate.
Qed.

(** C8. [delete_all_data] on a store with rows deletes them all and
    commits, and the resolver called afterwards with an id that was in
    the store returns the empty list of rows. *)
Theorem wipe_then_resolve :
  forall (c : Store.connection) (k : Z),
    In k (Store.ids (Store.pending c)) ->
    let wipe := delete_all_data c in
    result wipe = Returned tt /\
    stdout wipe = [] /\
    Store.ids (Store.pending (conn wipe)) = [] /\
    Store.committed (conn wipe) = Store.pending (conn wipe) /\
    _get_staffs_by_staff_id k (conn wipe) = (Returned (Some []), conn wipe, []).
Proof.
  intros c k Hk wipe. subst wipe. rewrite delete_all_run.
  destruct (Store.pending c) as [t|]; [|contradiction].
  cbn [result conn stdout fst snd Store.pending Store.committed Store.ids Store.rows map].
  repeat split.
Qed.

Lemma wipe_then_resolve_witness :
  let wipe := delete_all_data (loaded six_node_forest) in
  result wipe = Returned tt /\
  stdout wipe = [] /\
  Store.ids (Store.pending (conn wipe)) = [] /\
  Store.committed (conn wipe) = Store.pending (conn wipe) /\
  _get_staffs_by_staff_id 4 (conn wipe) = (Returned (Some []), conn wipe, []).
Proof.
  apply (wipe_then_resolve (loaded six_node_forest) 4).
  vm_compute. tauto.
Defined.

(** C7. The schema step of [make_data] never raises; run a second time
    it finds the table in the catalog and does nothing: no statement is
    sent, so the connection, with the table, its index and all rows, is
    what the first run left.  On a store that already has the table the
    first run changes nothing either. *)
Theorem ensure_schema_idempotent :
  forall c : Store.connection,
    let first := ensure_schema c in
    result first = Returned tt /\
    ensure_schema (conn first) = (Returned tt, conn first, []) /\
    (Store.table_exists (Store.pending c) = true -> first = (Returned tt, c, [])).
Proof.
  intros c first. subst first. rewrite ensure_schema_run.
  destruct (Store.pending c) as [t|] eqn:E.
  - repeat split. cbn [conn fst snd]. rewrite ensure_schema_run. now rewrite E.
  - repeat split. simpl. discriminate.
Qed.

Lemma ensure_schema_idempotent_witness :
  let first := ensure_schema (loaded six_node_forest) in
  ensure_schema (conn first) = (Returned tt, conn first, []) /\
  first = (Returned tt, loaded six_node_forest, []).
Proof.
  destruct (ensure_schema_idempotent (loaded six_node_forest)) as (_ & H2 & H3).
  split; [exact H2 | apply H3; reflexivity].
Defined.

(** What the resolver returns for each of the three kinds of node of a
    well-formed forest in the table. *)
Section ResolveInForest.
Variable c : Store.connection.
Variable t : Store.table.
Hypothesis Hpending : Store.pending c = Some t.
Hypothesis Hwf : well_formed (Store.rows t).

Lemma resolve_office (o : Node) :
  In o (Store.rows t) -> type o = 1 ->
  _get_staffs_by_staff_id (id o) c = (Returned (Some []), c, []).
Proof.
  intros Hin Ht. rewrite get_staffs_run, Hpending. simpl.
  unfold Query.select_staffs, Query.office_of, Query.ancestors.
  rewrite (Chains.ancestors_office _ Hwf o 3 Hin Ht). simpl.
  now rewrite QueryFacts.descendant_staff_nil.
Qed.

Lemma resolve_department (d : Node) :
  In d (Store.rows t) -> type d = 2 ->
  _get_staffs_by_staff_id (id d) c = (Returned (Some []), c, []).
Proof.
  intros Hin Ht. rewrite get_staffs_run, Hpending. simpl.
  unfold Query.select_staffs, Query.office_of, Query.ancestors.
  destruct (Chains.ancestors_department _ Hwf d 2 Hin Ht) as (o & _ & _ & _ & E).
  rewrite E. simpl. now rewrite QueryFacts.descendant_staff_nil.
Qed.

Lemma resolve_staff (s d o : Node) :
  In s (Store.rows t) -> type s = 3 ->
  In d (Store.rows t) -> parent_id s = Some (id d) ->
  In o (Store.rows t) -> parent_id d = Some (id o) ->
  _get_staffs_by_staff_id (id s) c
  = (Returned (Some (colleagues (Store.rows t) (id o))), c, []).
Proof.
  intros Hs Hts Hd Hps Ho Hpd. rewrite get_staffs_run, Hpending.
  destruct (Chains.ancestors_staff _ Hwf s 1 Hs Hts)
    as (d' & o' & Hd' & Htd' & Hps' & Ho' & Hto' & Hpd' & E).
  assert (Query.office_of (Store.rows t) (id s) = Returned (Some (id o'))) as Eo.
  { unfold Query.office_of, Query.ancestors. now rewrite E. }
  cbn [Query.execute]. unfold Query.select_staffs. rewrite Eo. cbn [obind].
  rewrite Chains.downward_colleagues.
  assert (id d' = id d) as Ed by congruence.
  assert (d' = d) as ->.
  { pose proof (QueryFacts.filter_id_unique _ d (proj1 Hwf) Hd) as F1.
    pose proof (QueryFacts.filter_id_unique _ d' (proj1 Hwf) Hd') as F2.
    rewrite Ed in F2. congruence. }
  assert (id o' = id o) as -> by congruence.
  reflexivity.
Qed.

End ResolveInForest.

(** C2, as the code has it. In a well-formed forest the resolver called
    with the id of an Office returns the empty list of rows: the chain
    of ancestors is the office alone and [OFFSET 2] leaves no row to
    name the office.  It is called with the id of a Staff node of that
    office that it returns the names of all staff across the office's
    departments. *)
Theorem office_id_resolves_to_nothing :
  forall (c : Store.connection) (t : Store.table) (o : Node),
    Store.pending c = Some t ->
    well_formed (Store.rows t) ->
    In o (Store.rows t) -> type o = 1 ->
    Query.recursive_union 4 (Store.rows t) (Query.seed (Store.rows t) (id o))
    = [Query.project o] /\
    _get_staffs_by_staff_id (id o) c = (Returned (Some []), c, []) /\
    (forall s d : Node,
        In s (Store.rows t) -> type s = 3 ->
        In d (Store.rows t) -> parent_id s = Some (id d) ->
        parent_id d = Some (id o) ->
        _get_staffs_by_staff_id (id s) c
        = (Returned (Some (colleagues (Store.rows t) (id o))), c, [])).
Proof.
  intros c t o Hp Hwf Hin Ht. split; [|split].
  - now apply Chains.ancestors_office.
  - now apply (resolve_office c t Hp Hwf).
  - intros s d Hs Hts Hd Hps Hpd.
    now apply (resolve_staff c t Hp Hwf s d o).
Qed.

Lemma office_id_resolves_to_nothing_witness :
  _get_staffs_by_staff_id 1 (loaded six_node_forest)
  = (Returned (Some []), loaded six_node_forest, []) /\
  _get_staffs_by_staff_id 6 (loaded six_node_forest)
  = (Returned (Some ["A"; "B"; "C"]), loaded six_node_forest, []).
Proof.
  destruct (office_id_resolves_to_nothing
              (loaded six_node_forest)
              {| Store.rows := six_node_forest;
                 Store.indexes := [Store.idx_offices_type_parent_id] |}
              (mkNode 1 None "Office" 1)
              eq_refl well_formed_six (or_introl eq_refl) eq_refl)
    as (_ & H1 & H2).
  split; [exact H1|].
  apply (H2 (mkNode 6 (Some 3) "C" 3) (mkNode 3 (Some 1) "Department 3" 2)).
  - simpl. tauto.
  - reflexivity.
  - simpl. tauto.
  - reflexivity.
  - reflexivity.
Defined.

(** C2 as stated fails on the six-node forest: called with the office's
    id 1 the resolver returns no row, called with the staff id 4 of that
    office it returns A, B and C. *)
Lemma office_id_differs_from_staff_id :
  well_formed six_node_forest /\
  In (mkNode 1 None "Office" 1) six_node_forest /\
  colleagues six_node_forest 1 = ["A"; "B"; "C"] /\
  result (_get_staffs_by_staff_id 1 (loaded six_node_forest)) = Returned (Some []) /\
  result (_get_staffs_by_staff_id 4 (loaded six_node_forest))
  = Returned (Some ["A"; "B"; "C"]) /\
  result (_get_staffs_by_staff_id 1 (loaded six_node_forest))
  <> result (_get_staffs_by_staff_id 4 (loaded six_node_forest)).
Proof.
  split; [exact well_formed_six|].
  split; [simpl; tauto|].
  repeat split; try reflexivity.
  vm_compute. discriminate.
Qed.

(** C3, as the code has it. The recursive part does follow the parents
    up to the node without one: from a Department of a well-formed
    forest the chain is the department, then its office.  The office is
    then read at the fixed [OFFSET 2] of that chain, which has no such
    row, so the resolver called with the id of a Department returns the
    empty list of rows, and not what it returns for a Staff id of the
    same office. *)
Theorem department_id_resolves_to_nothing :
  forall (c : Store.connection) (t : Store.table) (d : Node),
    Store.pending c = Some t ->
    well_formed (Store.rows t) ->
    In d (Store.rows t) -> type d = 2 ->
    (exists o : Node,
        In o (Store.rows t) /\ type o = 1 /\ parent_id d = Some (id o) /\
        parent_id o = None /\
        Query.recursive_union 4 (Store.rows t) (Query.seed (Store.rows t) (id d))
        = [Query.project d; Query.project o]) /\
    _get_staffs_by_staff_id (id d) c = (Returned (Some []), c, []).
Proof.
  intros c t d Hp Hwf Hin Ht. split.
  - destruct (Chains.ancestors_department _ Hwf d 2 Hin Ht) as (o & Ho & Hto & Hpd & E).
    exists o. repeat split; try assumption.
    apply (parent_ok_office (Store.rows t)); [|assumption].
    now apply Chains.node_parent_ok.
  - now apply (resolve_department c t Hp Hwf).
Qed.

Lemma department_id_resolves_to_nothing_witness :
  _get_staffs_by_staff_id 2 (loaded six_node_forest)
  = (Returned (Some []), loaded six_node_forest, []).
Proof.
  apply (department_id_resolves_to_nothing
           (loaded six_node_forest)
           {| Store.rows := six_node_forest;
              Store.indexes := [Store.idx_offices_type_parent_id] |}
           (mkNode 2 (Some 1) "Department 2" 2)
           eq_refl well_formed_six).
  - simpl. tauto.
  - reflexivity.
Defined.

(** C3 as stated fails on the six-node forest: called with the
    department ids 2 and 3 the resolver returns no row, called with a
    staff id of the same office it returns A, B and C. *)
Lemma department_id_differs_from_staff_id :
  well_formed six_node_forest /\
  In (mkNode 2 (Some 1) "Department 2" 2) six_node_forest /\
  result (_get_staffs_by_staff_id 2 (loaded six_node_forest)) = Returned (Some []) /\
  result (_get_staffs_by_staff_id 3 (loaded six_node_forest)) = Returned (Some []) /\
  result (_get_staffs_by_staff_id 4 (loaded six_node_forest))
  = Returned (Some ["A"; "B"; "C"]) /\
  result (_get_staffs_by_staff_id 2 (loaded six_node_forest))
  <> result (_get_staffs_by_staff_id 4 (loaded six_node_forest)).
Proof.
  split; [exact well_formed_six|].
  split; [simpl; tauto|].
  repeat split; try reflexivity.
  vm_compute. discriminate.
Qed.

(** ** Exceptions *)

Lemma rollback_clean (c : Store.connection) :
  Store.pending c = Store.committed c -> Store.rollback c = c.
Proof. destruct c as [cm pd]. simpl. intros ->. reflexivity. Qed.

(** Inserting touches the open transaction only. *)
Lemma executemany_committed (data : list event) (c : Store.connection) :
  Store.committed (conn (executemany data c)) = Store.committed c.
Proof.
  revert c. induction data as [|[s|r] data IH]; intros c; [reflexivity| |].
  - cbn [executemany]. unfold pbind, py_print.
    specialize (IH c). destruct (executemany data c) as [[o c1] out1].
    destruct o; exact IH.
  - cbn [executemany]. unfold pbind, execute.
    destruct (Store.insert r (Store.pending c)) as [d|e]; [|reflexivity].
    specialize (IH (Store.set_pending d c)).
    destruct (executemany data (Store.set_pending d c)) as [[o c1] out1].
    destruct o; exact IH.
Qed.

(** A load that raises has committed nothing. *)
Lemma load_raises_committed (data : list event) (c : Store.connection) (e : pg_error) :
  result ((executemany data ;;~ conn_commit) c) = Raised e ->
  Store.committed (conn ((executemany data ;;~ conn_commit) c)) = Store.committed c.
Proof.
  pose proof (executemany_committed data c) as H.
  unfold pbind, conn_commit.
  destruct (executemany data c) as [[o c1] out1].
  destruct o; simpl; [discriminate|]. intros _. exact H.
Qed.

Section MakeData.
Variable rng : Type.
Variable randint : Z -> Z -> rng -> Z * rng.

Lemma make_data_try_raises (source : option (list Node)) (g : rng)
      (c : Store.connection) (e : pg_error) :
  result (make_data_try randint source g c) = Raised e ->
  Store.committed (conn (make_data_try randint source g c))
  = Store.committed (conn (ensure_schema c)).
Proof.
  unfold make_data_try. unfold pbind at 1 2.
  pose proof (ensure_schema_run c) as Hs.
  destruct (ensure_schema c) as [[o1 c1] out1].
  assert (o1 = Returned tt) as ->.
  { destruct (Store.pending c); inversion Hs; reflexivity. }
  cbn [conn fst snd].
  pose proof (load_raises_committed
                (match source with
                 | Some file => map Yield file
                 | None => _create_random_data randint g
                 end) c1 e) as Hl.
  assert (match source with
          | Some file => import_json file
          | None => random_fill randint g
          end
          = (executemany
               (match source with
                | Some file => map Yield file
                | None => _create_random_data randint g
                end) ;;~ conn_commit)) as ->.
  { destruct source; reflexivity. }
  destruct ((executemany _ ;;~ conn_commit) c1) as [[o2 c2] out2].
  exact Hl.
Qed.

Lemma make_data_raises (source : option (list Node)) (g : rng)
      (c : Store.connection) (e : pg_error) :
  result (make_data_try randint source g c) = Raised e ->
  make_data randint source g c
  = (Returned tt, Store.rollback (conn (ensure_schema c)),
     stdout (make_data_try randint source g c) ++ [ErrorLine e]).
Proof.
  intros H. pose proof (make_data_try_raises source g c e H) as Hc.
  unfold make_data, try_except.
  destruct (make_data_try randint source g c) as [[o c1] out1].
  cbn [result conn stdout fst snd] in *. subst o.
  unfold report, pbind, conn_rollback, py_print. cbn [app].
  unfold Store.rollback. now rewrite Hc.
Qed.

End MakeData.

(** C9, as the code has it. When the [try] block of a method raises, the
    handler rolls the open transaction back to the last commit, prints
    the error on stdout and lets the method return normally ([None]):
    the caller gets no exception.  For the resolver and the delete the
    connection is then the rolled-back one of before the call (the one
    of before the call itself when nothing was pending); for [make_data]
    it is the rolled-back one of after the schema step, whose new table
    and index were committed before the load began. *)
Theorem exception_rolls_back_and_is_printed :
  forall (rng : Type) (randint : Z -> Z -> rng -> Z * rng)
         (source : option (list Node)) (g : rng) (k : Z)
         (c : Store.connection) (e : pg_error),
    (result (make_data_try randint source g c) = Raised e ->
     make_data randint source g c
     = (Returned tt, Store.rollback (conn (ensure_schema c)),
        stdout (make_data_try randint source g c) ++ [ErrorLine e])) /\
    (result (_get_staffs_try k c) = Raised e ->
     _get_staffs_by_staff_id k c = (Returned None, Store.rollback c, [ErrorLine e])) /\
    (result (delete_all_try c) = Raised e ->
     delete_all_data c = (Returned tt, Store.rollback c, [ErrorLine e])) /\
    (Store.pending c = Store.committed c -> Store.rollback c = c).
Proof.
  intros rng randint source g k c e. split; [|split; [|split]].
  - apply make_data_raises.
  - rewrite get_staffs_run.
    unfold _get_staffs_try, pbind, fetch. cbn [result fst snd].
    destruct (Query.execute (Store.pending c) k); unfold result; simpl; congruence.
  - rewrite delete_all_run.
    unfold delete_all_try, pbind, execute, Store.delete_all.
    destruct (Store.pending c); unfold result; simpl; congruence.
  - apply rollback_clean.
Qed.

Lemma exception_rolls_back_and_is_printed_witness :
  make_data lcg_randint (Some duplicate_ids) 0 empty_connection
  = (Returned tt,
     Store.rollback (conn (ensure_schema empty_connection)),
     [Text "База данных успешно создана"; ErrorLine (UniqueViolation 1)]) /\
  _get_staffs_by_staff_id 4 (loaded four_levels)
  = (Returned None, loaded four_levels, [ErrorLine CardinalityViolation]) /\
  delete_all_data empty_connection
  = (Returned tt, empty_connection, [ErrorLine UndefinedTable]).
Proof.
  split; [|split].
  - apply (proj1 (exception_rolls_back_and_is_printed
                    Z lcg_randint (Some duplicate_ids) 0 0 empty_connection
                    (UniqueViolation 1))).
    reflexivity.
  - apply (proj1 (proj2 (exception_rolls_back_and_is_printed
                           Z lcg_randint None 0 4 (loaded four_levels)
                           CardinalityViolation))).
    reflexivity.
  - apply (proj1 (proj2 (proj2 (exception_rolls_back_and_is_printed
                                  Z lcg_randint None 0 0 empty_connection
                                  UndefinedTable)))).
    reflexivity.
Defined.

(** C9 as stated fails for [make_data] on a fresh store with records
    that repeat an id: the insert raises, yet the method returns
    normally, and the store is not the one of before the call: the table
    and index created and committed before the load are there. *)
Lemma failed_load_keeps_new_table :
  let call := make_data lcg_randint (Some duplicate_ids) 0 empty_connection in
  result (make_data_try lcg_randint (Some duplicate_ids) 0 empty_connection)
  = Raised (UniqueViolation 1) /\
  result call = Returned tt /\
  stdout call = [Text "База данных успешно создана"; ErrorLine (UniqueViolation 1)] /\
  Store.committed (conn call)
  = Some {| Store.rows := []; Store.indexes := [Store.idx_offices_type_parent_id] |} /\
  conn call <> empty_connection.
Proof.
  repeat split; try reflexivity.
  vm_compute. discriminate.
Qed.

(** ** The generator *)

Lemma yielded_app (es1 es2 : list event) :
  yielded (es1 ++ es2) = yielded es1 ++ yielded es2.
Proof.
  induction es1 as [|[s|n] es1 IH]; simpl; [reflexivity|assumption|now rewrite IH].
Qed.

Section GeneratorRuns.
Variable rng : Type.
Variable randint : Z -> Z -> rng -> Z * rng.

(** The contract of [random.randint]: a value between its bounds. *)
Hypothesis randint_range :
  forall (lo hi : Z) (g : rng), lo <= hi -> lo <= fst (randint lo hi g) <= hi.

Lemma for_range_yields (body : nat -> Gen rng unit) (B : Z -> list Node -> Z -> Prop) :
  (forall k, yields (body k) B) ->
  forall n first, yields (for_range first n body) (Run B n).
Proof.
  intros Hbody. induction n as [|n IH]; intros first s.
  - simpl. constructor.
  - cbn [for_range]. unfold bind.
    pose proof (Hbody first s) as H1.
    destruct (body first s) as [[u es1] s1]. cbn [fst snd] in H1.
    pose proof (IH (S first) s1) as H2.
    destruct (for_range (S first) n body s1) as [[u2 es2] s2].
    cbn [fst snd] in *. rewrite yielded_app.
    econstructor; eassumption.
Qed.

Lemma staff_body_yields (d : Z) (k : nat) :
  yields (staff_body randint d k) (staff_block d).
Proof.
  intros s. unfold staff_body, bind, incr, rand, yield. cbn [i random].
  destruct (randint 1 10000000000 (random s)) as [r g1].
  cbn. split; [reflexivity|]. eexists. reflexivity.
Qed.

Lemma department_body_yields (o : Z) (k : nat) :
  yields (department_body randint o k) (department_block o).
Proof.
  intros s. unfold department_body, bind, incr, rand, yield. cbn [i random].
  destruct (randint 1 10000000000 (random s)) as [r g1]. cbn [i random].
  pose proof (randint_range 30 1000 g1 ltac:(lia)) as Hn.
  destruct (randint 30 1000 g1) as [v g2]. cbn [fst snd] in *.
  pose proof (for_range_yields _ _ (staff_body_yields (i s + 1))
                (Z.to_nat v) 0%nat {| i := i s + 1; random := g2 |}) as Hrun.
  destruct (for_range 0 (Z.to_nat v) (staff_body randint (i s + 1))
              {| i := i s + 1; random := g2 |}) as [[u es] s'].
  cbn [fst snd i app yielded] in *.
  exists ("Отдел_" ++ dec r)%string, (Z.to_nat v), (yielded es).
  split; [lia|]. split; [reflexivity|assumption].
Qed.

Lemma office_body_yields (k : nat) :
  yields (office_body randint k) office_block.
Proof.
  intros s. unfold office_body, bind, incr, rand, yield, print. cbn [i random].
  destruct (randint 1 10000000000 (random s)) as [r g1]. cbn [i random].
  pose proof (randint_range 40 80 g1 ltac:(lia)) as Hn.
  destruct (randint 40 80 g1) as [v g2]. cbn [fst snd] in *.
  pose proof (for_range_yields _ _ (department_body_yields (i s + 1))
                (Z.to_nat v) 0%nat {| i := i s + 1; random := g2 |}) as Hrun.
  destruct (for_range 0 (Z.to_nat v) (department_body randint (i s + 1))
              {| i := i s + 1; random := g2 |}) as [[u es] s'].
  cbn [fst snd i app yielded] in *.
  exists ("Офис_" ++ dec r)%string, (Z.to_nat v), (yielded es).
  split; [lia|]. split; [reflexivity|assumption].
Qed.

(** The generator yields a hundred office blocks, numbered from 1. *)
Lemma generator_blocks (g : rng) :
  exists hi, Run office_block 100 0 (yielded (_create_random_data randint g)) hi.
Proof.
  pose proof (for_range_yields _ _ office_body_yields 100 0%nat
                {| i := 0; random := g |}) as H.
  unfold _create_random_data. eexists. exact H.
Qed.

End GeneratorRuns.

(** ** Numbering *)

Lemma counter_values_length (lo : Z) (n : nat) :
  List.length (counter_values lo n) = n.
Proof. revert lo. induction n; intros lo; simpl; [reflexivity|now rewrite IHn]. Qed.

Lemma counter_values_app (lo : Z) (a b : nat) :
  counter_values lo (a + b) = counter_values lo a ++ counter_values (lo + Z.of_nat a) b.
Proof.
  revert lo. induction a as [|a IH]; intros lo.
  - simpl. now rewrite Z.add_0_r.
  - cbn [Nat.add counter_values app]. rewrite IH. do 3 f_equal. lia.
Qed.

Lemma counter_values_bounds (lo : Z) (n : nat) (x : Z) :
  In x (counter_values lo n) -> lo < x <= lo + Z.of_nat n.
Proof.
  revert lo. induction n as [|n IH]; intros lo; simpl; [contradiction|].
  intros [<-|H]; [lia|]. apply IH in H. lia.
Qed.

Lemma counter_values_sorted (lo : Z) (n : nat) :
  StronglySorted Z.lt (counter_values lo n).
Proof.
  revert lo. induction n as [|n IH]; intros lo; simpl; constructor.
  - apply IH.
  - apply Forall_forall. intros x Hx. apply counter_values_bounds in Hx. lia.
Qed.

Lemma counter_values_NoDup (lo : Z) (n : nat) : NoDup (counter_values lo n).
Proof.
  revert lo. induction n as [|n IH]; intros lo; simpl; constructor.
  - intros H. apply counter_values_bounds in H. lia.
  - apply IH.
Qed.

Lemma numbered_nil (lo : Z) : numbered lo [] lo.
Proof. split; simpl; [lia|reflexivity]. Qed.

Lemma numbered_cons (lo hi : Z) (n : Node) (out : list Node) :
  id n = lo + 1 -> numbered (lo + 1) out hi -> numbered lo (n :: out) hi.
Proof.
  intros E [H1 H2]. split.
  - cbn [List.length]. lia.
  - cbn [List.length map counter_values]. now rewrite E, H2.
Qed.

Lemma numbered_app (lo mid hi : Z) (o1 o2 : list Node) :
  numbered lo o1 mid -> numbered mid o2 hi -> numbered lo (o1 ++ o2) hi.
Proof.
  intros [H1 H2] [H3 H4]. split.
  - rewrite length_app. lia.
  - rewrite length_app, map_app, counter_values_app, H2, H4. now subst mid.
Qed.

Lemma numbered_bounds (lo hi : Z) (out : list Node) (x : Node) :
  numbered lo out hi -> In x out -> lo < id x <= hi.
Proof.
  intros [H1 H2] Hx. apply (in_map id) in Hx. rewrite H2 in Hx.
  apply counter_values_bounds in Hx. lia.
Qed.

Lemma numbered_le (lo hi : Z) (out : list Node) : numbered lo out hi -> lo <= hi.
Proof. intros [H1 _]. lia. Qed.

Lemma Run_numbered (B : Z -> list Node -> Z -> Prop) :
  (forall lo o hi, B lo o hi -> numbered lo o hi) ->
  forall n lo out hi, Run B n lo out hi -> numbered lo out hi.
Proof.
  intros HB n lo out hi H. induction H.
  - apply numbered_nil.
  - eapply numbered_app; eauto.
Qed.

Lemma staff_block_numbered (d lo : Z) (out : list Node) (hi : Z) :
  staff_block d lo out hi -> numbered lo out hi.
Proof.
  intros [-> [nm ->]]. apply numbered_cons; [reflexivity|apply numbered_nil].
Qed.

Lemma department_block_numbered (o lo : Z) (out : list Node) (hi : Z) :
  department_block o lo out hi -> numbered lo out hi.
Proof.
  intros (nm & n & outs & _ & -> & H). apply numbered_cons; [reflexivity|].
  eapply Run_numbered; [|exact H]. apply staff_block_numbered.
Qed.

Lemma office_block_numbered (lo : Z) (out : list Node) (hi : Z) :
  office_block lo out hi -> numbered lo out hi.
Proof.
  intros (nm & n & outd & _ & -> & H). apply numbered_cons; [reflexivity|].
  eapply Run_numbered; [|exact H]. apply department_block_numbered.
Qed.

(** ** Children *)

Lemma children_app (t : Z) (l1 l2 : list Node) (q : Z) :
  children t (l1 ++ l2) q = children t l1 q ++ children t l2 q.
Proof. apply filter_app. Qed.

Lemma children_cons_other (t : Z) (n : Node) (l : list Node) (q : Z) :
  type n <> t -> children t (n :: l) q = children t l q.
Proof.
  intros H. unfold children. cbn [filter].
  destruct (Z.eqb_spec (type n) t); [contradiction|reflexivity].
Qed.

Lemma children_none (t : Z) (l : list Node) (q : Z) :
  (forall x, In x l -> type x = t -> parent_id x <> Some q) -> children t l q = [].
Proof.
  intros H. apply QueryFacts.filter_none. intros x Hx.
  apply not_true_is_false. intros E. apply andb_true_iff in E. destruct E as [E1 E2].
  apply Z.eqb_eq in E1. apply opt_eqb_eq in E2. exact (H x Hx E1 E2).
Qed.

Lemma children_all (t : Z) (l : list Node) (q : Z) :
  Forall (fun x => type x = t /\ parent_id x = Some q) l -> children t l q = l.
Proof.
  induction 1 as [|x l [E1 E2] _ IH]; [reflexivity|].
  unfold children in *. cbn [filter]. rewrite E1, E2, Z.eqb_refl, IH.
  cbn. now rewrite Z.eqb_refl.
Qed.

(** The staff of one pass of the department loop: all of type 3, all
    with the department as parent, one per pass of the staff loop. *)
Lemma staff_run_all (d : Z) (n : nat) (lo hi : Z) (out : list Node) :
  Run (staff_block d) n lo out hi ->
  Forall (fun x => type x = 3 /\ parent_id x = Some d) out /\ List.length out = n.
Proof.
  induction 1 as [|n lo mid hi o1 o2 [_ [nm ->]] _ [IH1 IH2]].
  - split; [constructor|reflexivity].
  - split; [constructor; [split; reflexivity|assumption]|].
    cbn [app List.length]. now rewrite IH2.
Qed.

(** In a run of blocks whose references of type [t] stay inside the
    block, the children of a node outside the run are none. *)
Lemma Run_children_local (B : Z -> list Node -> Z -> Prop) (t : Z) :
  (forall lo o hi, B lo o hi -> numbered lo o hi) ->
  (forall lo o hi, B lo o hi -> forall q, ~ lo < q <= hi -> children t o q = []) ->
  forall n lo out hi, Run B n lo out hi ->
  forall q, ~ lo < q <= hi -> children t out q = [].
Proof.
  intros Hnum Hloc n lo out hi H. induction H as [|n lo mid hi o1 o2 HB HR IH].
  - reflexivity.
  - intros q Hq. rewrite children_app.
    pose proof (numbered_le _ _ _ (Hnum _ _ _ HB)).
    pose proof (numbered_le _ _ _ (Run_numbered B Hnum _ _ _ _ HR)).
    rewrite (Hloc _ _ _ HB q), IH; [reflexivity| |]; lia.
Qed.

(** ... and a bound on the children of the nodes of type [p] that holds
    in every block holds in the run. *)
Lemma Run_children_bound (B : Z -> list Node -> Z -> Prop) (p t a b : Z) :
  (forall lo o hi, B lo o hi -> numbered lo o hi) ->
  (forall lo o hi, B lo o hi -> forall q, ~ lo < q <= hi -> children t o q = []) ->
  (forall lo o hi, B lo o hi -> forall x, In x o -> type x = p ->
      a <= Z.of_nat (List.length (children t o (id x))) <= b) ->
  forall n lo out hi, Run B n lo out hi ->
  forall x, In x out -> type x = p ->
    a <= Z.of_nat (List.length (children t out (id x))) <= b.
Proof.
  intros Hnum Hloc Hbound n lo out hi H.
  induction H as [|n lo mid hi o1 o2 HB HR IH]; [contradiction|].
  intros x Hx Ht. rewrite children_app, length_app.
  pose proof (Hnum _ _ _ HB) as N1.
  pose proof (Run_numbered B Hnum _ _ _ _ HR) as N2.
  apply in_app_or in Hx. destruct Hx as [Hx|Hx].
  - pose proof (numbered_bounds _ _ _ _ N1 Hx).
    rewrite (Run_children_local B t Hnum Hloc _ _ _ _ HR (id x)) by lia.
    rewrite Nat.add_0_r. now apply (Hbound _ _ _ HB).
  - pose proof (numbered_bounds _ _ _ _ N2 Hx).
    rewrite (Hloc _ _ _ HB (id x)) by lia.
    now apply IH.
Qed.

(** *** One department block *)

Section DepartmentBlock.
Variables (o lo : Z) (out : list Node) (hi : Z).
Hypothesis Hblock : department_block o lo out hi.

Lemma department_block_departments (q : Z) :
  List.length (children 2 out q) = if q =? o then 1%nat else 0%nat.
Proof.
  destruct Hblock as (nm & n & outs & _ & -> & H).
  apply staff_run_all in H. destruct H as [Hall _].
  unfold children at 1. cbn [filter type parent_id]. rewrite opt_eqb_some.
  assert (children 2 outs q = []) as E.
  { apply children_none. intros x Hx Ht.
    rewrite Forall_forall in Hall. destruct (Hall x Hx). lia. }
  unfold children in E. rewrite E, (Z.eqb_sym o q).
  now destruct (q =? o).
Qed.

Lemma department_block_staff_local (q : Z) :
  q <> lo + 1 -> children 3 out q = [].
Proof.
  intros Hq. destruct Hblock as (nm & n & outs & _ & -> & H).
  apply staff_run_all in H. destruct H as [Hall _].
  rewrite children_cons_other by (simpl; lia).
  apply children_none. intros x Hx _.
  rewrite Forall_forall in Hall. destruct (Hall x Hx). congruence.
Qed.

Lemma department_block_staff_outside (q : Z) :
  ~ lo < q <= hi -> children 3 out q = [].
Proof.
  intros Hq. apply department_block_staff_local.
  pose proof (department_block_numbered _ _ _ _ Hblock) as N.
  destruct N as [N _]. destruct Hblock as (nm & n & outs & _ & -> & _).
  cbn [List.length] in N. lia.
Qed.

Lemma department_block_staff_bound (x : Node) :
  In x out -> type x = 2 ->
  30 <= Z.of_nat (List.length (children 3 out (id x))) <= 1000.
Proof.
  destruct Hblock as (nm & n & outs & Hn & -> & H).
  apply staff_run_all in H. destruct H as [Hall Hlen].
  intros [<-|Hx] Ht.
  - rewrite children_cons_other by (simpl; lia).
    cbn [id]. rewrite (children_all _ _ _ Hall). lia.
  - rewrite Forall_forall in Hall. destruct (Hall x Hx). lia.
Qed.

Lemma department_block_no_office : offices_in out = [].
Proof.
  destruct Hblock as (nm & n & outs & _ & -> & H).
  apply staff_run_all in H. destruct H as [Hall _].
  apply QueryFacts.filter_none. intros x [<-|Hx]; [reflexivity|].
  rewrite Forall_forall in Hall. destruct (Hall x Hx) as [E _]. now rewrite E.
Qed.

End DepartmentBlock.

(** *** The departments of one office *)

Section DepartmentRun.
Variable o : Z.

Lemma department_run_numbered (n : nat) (lo : Z) (out : list Node) (hi : Z) :
  Run (department_block o) n lo out hi -> numbered lo out hi.
Proof. apply Run_numbered. apply department_block_numbered. Qed.

Lemma department_run_departments (n : nat) (lo : Z) (out : list Node) (hi : Z) (q : Z) :
  Run (department_block o) n lo out hi ->
  List.length (children 2 out q) = if q =? o then n else 0%nat.
Proof.
  induction 1 as [|n lo mid hi o1 o2 HB _ IH].
  - now destruct (q =? o).
  - rewrite children_app, length_app, IH, (department_block_departments _ _ _ _ HB).
    now destruct (q =? o).
Qed.

Lemma department_run_staff_outside (n : nat) (lo : Z) (out : list Node) (hi : Z) :
  Run (department_block o) n lo out hi ->
  forall q, ~ lo < q <= hi -> children 3 out q = [].
Proof.
  apply Run_children_local.
  - apply department_block_numbered.
  - apply department_block_staff_outside.
Qed.

Lemma department_run_staff_bound (n : nat) (lo : Z) (out : list Node) (hi : Z) :
  Run (department_block o) n lo out hi ->
  forall x, In x out -> type x = 2 ->
    30 <= Z.of_nat (List.length (children 3 out (id x))) <= 1000.
Proof.
  apply Run_children_bound.
  - apply department_block_numbered.
  - apply department_block_staff_outside.
  - apply department_block_staff_bound.
Qed.

Lemma department_run_no_office (n : nat) (lo : Z) (out : list Node) (hi : Z) :
  Run (department_block o) n lo out hi -> offices_in out = [].
Proof.
  induction 1 as [|n lo mid hi o1 o2 HB _ IH]; [reflexivity|].
  pose proof (department_block_no_office _ _ _ _ HB) as E.
  unfold offices_in in *. now rewrite filter_app, IH, E.
Qed.

End DepartmentRun.

(** *** One office block *)

Section OfficeBlock.
Variables (lo : Z) (out : list Node) (hi : Z).
Hypothesis Hblock : office_block lo out hi.

Lemma office_block_offices : List.length (offices_in out) = 1%nat.
Proof.
  destruct Hblock as (nm & n & outd & _ & -> & H).
  unfold offices_in. cbn [filter type Z.eqb Pos.eqb].
  apply department_run_no_office in H. unfold offices_in in H. now rewrite H.
Qed.

Lemma office_block_office_id (x : Node) : In x out -> type x = 1 -> id x = lo + 1.
Proof.
  destruct Hblock as (nm & n & outd & _ & -> & H).
  intros [<-|Hx] Ht; [reflexivity|].
  apply department_run_no_office in H.
  assert (In x (offices_in outd)) as Hin.
  { apply filter_In. split; [assumption|now apply Z.eqb_eq]. }
  rewrite H in Hin. contradiction.
Qed.

Lemma office_block_departments_local (q : Z) :
  q <> lo + 1 -> children 2 out q = [].
Proof.
  intros Hq. destruct Hblock as (nm & n & outd & _ & -> & H).
  rewrite children_cons_other by (simpl; lia).
  apply length_zero_iff_nil.
  rewrite (department_run_departments _ _ _ _ _ q H).
  destruct (Z.eqb_spec q (lo + 1)); [contradiction|reflexivity].
Qed.

Lemma office_block_le : lo + 1 <= hi.
Proof.
  pose proof (office_block_numbered _ _ _ Hblock) as [N _].
  destruct Hblock as (nm & n & outd & _ & -> & _). cbn [List.length] in N. lia.
Qed.

Lemma office_block_departments_outside (q : Z) :
  ~ lo < q <= hi -> children 2 out q = [].
Proof.
  intros Hq. apply office_block_departments_local.
  pose proof office_block_le. lia.
Qed.

Lemma office_block_departments_bound (x : Node) :
  In x out -> type x = 1 ->
  40 <= Z.of_nat (List.length (children 2 out (id x))) <= 80.
Proof.
  intros Hx Ht. rewrite (office_block_office_id x Hx Ht).
  destruct Hblock as (nm & n & outd & Hn & -> & H).
  rewrite children_cons_other by (simpl; lia).
  rewrite (department_run_departments _ _ _ _ _ (lo + 1) H), Z.eqb_refl. exact Hn.
Qed.

Lemma office_block_staff_outside (q : Z) :
  ~ lo < q <= hi -> children 3 out q = [].
Proof.
  intros Hq. destruct Hblock as (nm & n & outd & _ & -> & H).
  rewrite children_cons_other by (simpl; lia).
  apply (department_run_staff_outside _ _ _ _ _ H). lia.
Qed.

Lemma office_block_staff_bound (x : Node) :
  In x out -> type x = 2 ->
  30 <= Z.of_nat (List.length (children 3 out (id x))) <= 1000.
Proof.
  destruct Hblock as (nm & n & outd & _ & -> & H).
  intros [<-|Hx] Ht; [discriminate|].
  rewrite children_cons_other by (simpl; lia).
  now apply (department_run_staff_bound _ _ _ _ _ H).
Qed.

End OfficeBlock.

(** *** The whole run of offices *)

Lemma office_run_numbered (n : nat) (lo : Z) (out : list Node) (hi : Z) :
  Run office_block n lo out hi -> numbered lo out hi.
Proof. apply Run_numbered. apply office_block_numbered. Qed.

Lemma office_run_offices (n : nat) (lo : Z) (out : list Node) (hi : Z) :
  Run office_block n lo out hi -> List.length (offices_in out) = n.
Proof.
  induction 1 as [|n lo mid hi o1 o2 HB _ IH]; [reflexivity|].
  unfold offices_in in *. rewrite filter_app, length_app, IH.
  pose proof (office_block_offices _ _ _ HB) as E. unfold offices_in in E.
  now rewrite E.
Qed.

Lemma office_run_departments_bound (n : nat) (lo : Z) (out : list Node) (hi : Z) :
  Run office_block n lo out hi ->
  forall x, In x out -> type x = 1 ->
    40 <= Z.of_nat (List.length (departments_of out (id x))) <= 80.
Proof.
  apply Run_children_bound.
  - apply office_block_numbered.
  - apply office_block_departments_outside.
  - apply office_block_departments_bound.
Qed.

Lemma office_run_staff_bound (n : nat) (lo : Z) (out : list Node) (hi : Z) :
  Run office_block n lo out hi ->
  forall x, In x out -> type x = 2 ->
    30 <= Z.of_nat (List.length (staff_of out (id x))) <= 1000.
Proof.
  apply Run_children_bound.
  - apply office_block_numbered.
  - apply office_block_staff_outside.
  - apply office_block_staff_bound.
Qed.

(** *** The counts are the draws *)

Section GeneratorDraws.
Variable rng : Type.
Variable randint : Z -> Z -> rng -> Z * rng.
Hypothesis randint_range :
  forall (lo hi : Z) (g : rng), lo <= hi -> lo <= fst (randint lo hi g) <= hi.

(** One pass of the department loop yields as many staff of the new
    department as [randint(30, 1000)] returned. *)
Lemma department_body_staff (o : Z) (k : nat) (s : locals rng) :
  List.length
    (staff_of (yielded (snd (fst (department_body randint o k s)))) (i s + 1))
  = Z.to_nat (fst (randint 30 1000 (snd (randint 1 10000000000 (random s))))).
Proof.
  unfold department_body, bind, incr, rand, yield. cbn [i random].
  destruct (randint 1 10000000000 (random s)) as [r g1]. cbn [i random snd].
  destruct (randint 30 1000 g1) as [v g2]. cbn [fst].
  pose proof (for_range_yields rng _ _ (staff_body_yields rng randint (i s + 1))
                (Z.to_nat v) 0%nat {| i := i s + 1; random := g2 |}) as Hrun.
  destruct (for_range 0 (Z.to_nat v) (staff_body randint (i s + 1))
              {| i := i s + 1; random := g2 |}) as [[u es] s'].
  cbn [fst snd i app yielded] in *.
  apply staff_run_all in Hrun. destruct Hrun as [Hall Hlen].
  unfold staff_of. rewrite children_cons_other by (simpl; lia).
  now rewrite (children_all _ _ _ Hall).
Qed.

(** One pass of the office loop yields as many departments of the new
    office as [randint(40, 80)] returned. *)
Lemma office_body_departments (k : nat) (s : locals rng) :
  List.length
    (departments_of (yielded (snd (fst (office_body randint k s)))) (i s + 1))
  = Z.to_nat (fst (randint 40 80 (snd (randint 1 10000000000 (random s))))).
Proof.
  unfold office_body, bind, incr, rand, yield, print. cbn [i random].
  destruct (randint 1 10000000000 (random s)) as [r g1]. cbn [i random snd].
  destruct (randint 40 80 g1) as [v g2]. cbn [fst].
  pose proof (for_range_yields rng _ _
                (department_body_yields rng randint randint_range (i s + 1))
                (Z.to_nat v) 0%nat {| i := i s + 1; random := g2 |}) as Hrun.
  destruct (for_range 0 (Z.to_nat v) (department_body randint (i s + 1))
              {| i := i s + 1; random := g2 |}) as [[u es] s'].
  cbn [fst snd i app yielded] in *.
  unfold departments_of. rewrite children_cons_other by (simpl; lia).
  now rewrite (department_run_departments _ _ _ _ _ (i s + 1) Hrun), Z.eqb_refl.
Qed.

End GeneratorDraws.

(** ** Parents before children *)

Lemma parents_first_app (seen l1 l2 : list Node) :
  parents_first seen (l1 ++ l2)
  = parents_first seen l1 && parents_first (rev l1 ++ seen) l2.
Proof.
  revert seen. induction l1 as [|n l1 IH]; intros seen; [reflexivity|].
  cbn [app parents_first rev]. rewrite IH, <- app_assoc, andb_assoc. reflexivity.
Qed.

Lemma parents_first_incl (seen seen' l : list Node) :
  incl seen seen' -> parents_first seen l = true -> parents_first seen' l = true.
Proof.
  revert seen seen'. induction l as [|n l IH]; intros seen seen' Hi; [reflexivity|].
  cbn [parents_first]. rewrite !andb_true_iff. intros [H1 H2]. split.
  - eapply parent_ok_incl; eassumption.
  - apply (IH (n :: seen)); [|assumption].
    intros x [<-|Hx]; [now left|right; now apply Hi].
Qed.

(** The node at any place of a parents-first sequence has its parent
    among the nodes before that place. *)
Lemma parents_first_split (before after : list Node) (n : Node) :
  parents_first [] (before ++ n :: after) = true -> parent_ok before n = true.
Proof.
  rewrite parents_first_app. cbn [parents_first]. rewrite !andb_true_iff.
  intros (_ & H & _). eapply parent_ok_incl; [|exact H].
  rewrite app_nil_r. intros x Hx. now apply in_rev.
Qed.

Lemma Run_parents_first (B : Z -> list Node -> Z -> Prop) (C : list Node -> Prop) :
  (forall seen seen', incl seen seen' -> C seen -> C seen') ->
  (forall lo o hi seen, B lo o hi -> C seen -> parents_first seen o = true) ->
  forall n lo out hi, Run B n lo out hi ->
  forall seen, C seen -> parents_first seen out = true.
Proof.
  intros Hmono HB n lo out hi H. induction H as [|n lo mid hi o1 o2 H1 _ IH].
  - reflexivity.
  - intros seen HC. rewrite parents_first_app. apply andb_true_iff. split.
    + eapply HB; eassumption.
    + apply IH. apply (Hmono seen); [|assumption].
      intros x Hx. apply in_or_app. now right.
Qed.

Lemma staff_block_parents_first (d lo : Z) (out : list Node) (hi : Z) (seen : list Node) :
  staff_block d lo out hi -> has_node seen d 2 = true -> parents_first seen out = true.
Proof.
  intros [_ [nm ->]] H. cbn [parents_first]. unfold parent_ok. cbn. now rewrite H.
Qed.

Lemma department_block_parents_first
      (o lo : Z) (out : list Node) (hi : Z) (seen : list Node) :
  department_block o lo out hi -> has_node seen o 1 = true ->
  parents_first seen out = true.
Proof.
  intros (nm & n & outs & _ & -> & H) Ho.
  cbn [parents_first]. apply andb_true_iff. split.
  - unfold parent_ok. cbn. exact Ho.
  - apply (Run_parents_first (staff_block (lo + 1))
             (fun seen => has_node seen (lo + 1) 2 = true))
      with (n := n) (lo := lo + 1) (hi := hi).
    + intros s1 s2. apply has_node_incl.
    + intros lo' o' hi' seen'. apply staff_block_parents_first.
    + exact H.
    + unfold has_node. cbn. now rewrite Z.eqb_refl.
Qed.

Lemma office_block_parents_first (lo : Z) (out : list Node) (hi : Z) (seen : list Node) :
  office_block lo out hi -> True -> parents_first seen out = true.
Proof.
  intros (nm & n & outd & _ & -> & H) _.
  cbn [parents_first]. apply andb_true_iff. split; [reflexivity|].
  apply (Run_parents_first (department_block (lo + 1))
           (fun seen => has_node seen (lo + 1) 1 = true))
    with (n := n) (lo := lo + 1) (hi := hi).
  - intros s1 s2. apply has_node_incl.
  - intros lo' o' hi' seen'. apply department_block_parents_first.
  - exact H.
  - unfold has_node. cbn. now rewrite Z.eqb_refl.
Qed.

Lemma office_run_parents_first (n : nat) (lo : Z) (out : list Node) (hi : Z) :
  Run office_block n lo out hi -> parents_first [] out = true.
Proof.
  intros H.
  apply (Run_parents_first office_block (fun _ => True)) with (n := n) (lo := lo) (hi := hi).
  - intros; exact I.
  - intros lo' o' hi' seen'. apply office_block_parents_first.
  - exact H.
  - exact I.
Qed.

(** A sequence with distinct ids in which parents come first is a
    well-formed forest. *)
Lemma parents_first_well_formed (l : list Node) :
  NoDup (map id l) -> parents_first [] l = true -> well_formed l.
Proof.
  intros Hnd Hpf. split; [assumption|].
  apply Forall_forall. intros n Hn.
  destruct (in_split _ _ Hn) as (before & after & E).
  rewrite E in Hpf. apply parents_first_split in Hpf.
  eapply parent_ok_incl; [|exact Hpf].
  rewrite E. intros x Hx. apply in_or_app. now left.
Qed.

(** ** The generated forest *)

(** One pass of the staff loop, run: the counter goes from 10 to 11 and
    the node of id 11 is yielded under department 7. *)
Example staff_body_once :
  staff_body lcg_randint 7 0 {| i := 10; random := 1 |}
  = (tt,
     [Yield (mkNode 11 (Some 7) "Сотрудник_1103527591" 3)],
     {| i := 11; random := 1103527590 |}).
Proof. vm_compute. reflexivity. Qed.

(** [VARCHAR(255)] counts characters, not bytes. *)
Example char_length_office : Store.char_length "Офис_1" = 6%nat.
Proof. reflexivity. Qed.

Lemma lcg_randint_range (lo hi g : Z) :
  lo <= hi -> lo <= fst (lcg_randint lo hi g) <= hi.
Proof.
  intros H. unfold lcg_randint. cbn [fst].
  pose proof (Z.mod_pos_bound ((g * 1103515245 + 12345) mod 2147483648) (hi - lo + 1)).
  lia.
Qed.

(** C5. Whatever [randint] returns within its bounds, the nodes the
    generator yields are a hundred office blocks: an office, then
    between 40 and 80 department blocks, each a department and then
    between 30 and 1000 staff.  So there are exactly 100 Office nodes,
    every office has between 40 and 80 departments, every department
    between 30 and 1000 staff, and the ids are the values 1, 2, 3, ...
    of one counter started at 0 and incremented once per node:
    distinct, and increasing in the order of emission.  The two counts
    are the draws themselves: a pass of the office loop yields as many
    departments of its office as its [randint(40, 80)] returned, a pass
    of the department loop as many staff as its [randint(30, 1000)]
    returned. *)
Theorem generator_shape :
  forall (rng : Type) (randint : Z -> Z -> rng -> Z * rng),
    (forall lo hi g, lo <= hi -> lo <= fst (randint lo hi g) <= hi) ->
    forall g : rng,
      let out := yielded (_create_random_data randint g) in
      (exists hi, Run office_block 100 0 out hi) /\
      List.length (offices_in out) = 100%nat /\
      (forall o, In o out -> type o = 1 ->
         40 <= Z.of_nat (List.length (departments_of out (id o))) <= 80) /\
      (forall d, In d out -> type d = 2 ->
         30 <= Z.of_nat (List.length (staff_of out (id d))) <= 1000) /\
      map id out = counter_values 0 (List.length out) /\
      NoDup (map id out) /\
      StronglySorted Z.lt (map id out) /\
      (forall (k : nat) (s : locals rng),
         List.length
           (departments_of (yielded (snd (fst (office_body randint k s)))) (i s + 1))
         = Z.to_nat (fst (randint 40 80 (snd (randint 1 10000000000 (random s)))))) /\
      (forall (o : Z) (k : nat) (s : locals rng),
         List.length
           (staff_of (yielded (snd (fst (department_body randint o k s)))) (i s + 1))
         = Z.to_nat (fst (randint 30 1000 (snd (randint 1 10000000000 (random s)))))).
Proof.
  intros rng randint Hrange g out.
  destruct (generator_blocks rng randint Hrange g) as [hi H]. fold out in H.
  pose proof (office_run_numbered _ _ _ _ H) as [_ Hids].
  split; [now exists hi|].
  split; [now apply (office_run_offices _ _ _ _ H)|].
  split; [now apply (office_run_departments_bound _ _ _ _ H)|].
  split; [now apply (office_run_staff_bound _ _ _ _ H)|].
  split; [assumption|].
  rewrite Hids.
  split; [apply counter_values_NoDup|].
  split; [apply counter_values_sorted|].
  split.
  - intros k s. now apply office_body_departments.
  - intros o k s. apply department_body_staff.
Qed.

Lemma generator_shape_witness :
  let out := yielded (_create_random_data lcg_randint 2024) in
  List.length (offices_in out) = 100%nat /\
  map id out = counter_values 0 (List.length out).
Proof.
  destruct (generator_shape Z lcg_randint lcg_randint_range 2024)
    as (_ & H1 & _ & _ & H2 & _ & _ & _ & _).
  split; assumption.
Defined.

(** C6. Whatever [randint] returns within its bounds, the nodes the
    generator yields are a well-formed forest: an Office has no parent,
    the parent of a Department is the id of an Office of the sequence,
    the parent of a Staff node is the id of a Department of the
    sequence, every node is of one of the three types, and no id occurs
    twice. *)
Theorem generator_well_formed :
  forall (rng : Type) (randint : Z -> Z -> rng -> Z * rng),
    (forall lo hi g, lo <= hi -> lo <= fst (randint lo hi g) <= hi) ->
    forall g : rng,
      let out := yielded (_create_random_data randint g) in
      well_formed out /\
      NoDup (map id out) /\
      (forall n, In n out -> type n = 1 \/ type n = 2 \/ type n = 3) /\
      (forall n, In n out -> type n = 1 -> parent_id n = None) /\
      (forall n, In n out -> type n = 2 ->
         exists o, In o out /\ type o = 1 /\ parent_id n = Some (id o)) /\
      (forall n, In n out -> type n = 3 ->
         exists d, In d out /\ type d = 2 /\ parent_id n = Some (id d)).
Proof.
  intros rng randint Hrange g out.
  destruct (generator_blocks rng randint Hrange g) as [hi H]. fold out in H.
  pose proof (office_run_numbered _ _ _ _ H) as [_ Hids].
  assert (NoDup (map id out)) as Hnd.
  { rewrite Hids. apply counter_values_NoDup. }
  pose proof (parents_first_well_formed out Hnd (office_run_parents_first _ _ _ _ H))
    as Hwf.
  assert (forall n, In n out -> parent_ok out n = true) as Hok.
  { apply Forall_forall. exact (proj2 Hwf). }
  split; [assumption|]. split; [assumption|].
  split; [|split; [|split]]; intros n Hn.
  - exact (parent_ok_type out n (Hok n Hn)).
  - exact (parent_ok_office out n (Hok n Hn)).
  - intros Ht. destruct (parent_ok_department out n (Hok n Hn) Ht) as (o & ? & ? & ?).
    exists o. auto.
  - intros Ht. destruct (parent_ok_staff out n (Hok n Hn) Ht) as (d & ? & ? & ?).
    exists d. auto.
Qed.

Lemma generator_well_formed_witness :
  well_formed (yielded (_create_random_data lcg_randint 2024)).
Proof.
  exact (proj1 (generator_well_formed Z lcg_randint lcg_randint_range 2024)).
Defined.

(** C10. Whatever [randint] returns within its bounds, at every place of
    the sequence the generator yields the parent of the node there is
    among the nodes yielded before it: the Office of a Department, the
    Department of a Staff node. *)
Theorem generator_parents_first :
  forall (rng : Type) (randint : Z -> Z -> rng -> Z * rng),
    (forall lo hi g, lo <= hi -> lo <= fst (randint lo hi g) <= hi) ->
    forall g : rng,
      let out := yielded (_create_random_data randint g) in
      parents_first [] out = true /\
      forall before n after,
        out = before ++ n :: after ->
        (type n = 2 ->
         exists o, In o before /\ type o = 1 /\ parent_id n = Some (id o)) /\
        (type n = 3 ->
         exists d, In d before /\ type d = 2 /\ parent_id n = Some (id d)).
Proof.
  intros rng randint Hrange g out.
  destruct (generator_blocks rng randint Hrange g) as [hi H]. fold out in H.
  pose proof (office_run_parents_first _ _ _ _ H) as Hpf.
  split; [assumption|].
  intros before n after E. rewrite E in Hpf.
  apply parents_first_split in Hpf. split; intros Ht.
  - destruct (parent_ok_department before n Hpf Ht) as (o & ? & ? & ?). exists o. auto.
  - destruct (parent_ok_staff before n Hpf Ht) as (d & ? & ? & ?). exists d. auto.
Qed.

Lemma generator_parents_first_witness :
  parents_first [] (yielded (_create_random_data lcg_randint 2024)) = true.
Proof.
  exact (proj1 (generator_parents_first Z lcg_randint lcg_randint_range 2024)).
Defined.


(** ** Bulk loads *)

Lemma distinct_NoDup (l : list Z) : distinct l = true <-> NoDup l.
Proof.
  induction l as [|x l IH]; simpl.
  - split; [constructor|reflexivity].
  - rewrite andb_true_iff, negb_true_iff, IH. split.
    + intros [H1 H2]. constructor; [|assumption].
      intros Hin. apply not_true_iff_false in H1. apply H1.
      apply existsb_exists. exists x. split; [assumption|apply Z.eqb_refl].
    + intros H. inversion H as [|? ? Hn Hd]; subst. split; [|assumption].
      apply not_true_iff_false. intros E. apply existsb_exists in E.
      destruct E as (y & Hy & E). apply Z.eqb_eq in E. now subst y.
Qed.

Lemma id_absent (rows : list Node) (k : Z) :
  existsb (fun x => id x =? k) rows = false <-> ~ In k (map id rows).
Proof.
  rewrite <- not_true_iff_false, existsb_exists, in_map_iff. split.
  - intros H (x & E & Hx). apply H. exists x. split; [assumption|now apply Z.eqb_eq].
  - intros H (x & Hx & E). apply H. exists x. apply Z.eqb_eq in E. auto.
Qed.

Lemma loadable_spec (rows file : list Node) :
  loadable rows file = true <->
  (forall r, In r file -> Store.column_error r = None) /\
  NoDup (map id file) /\
  (forall r, In r file -> ~ In (id r) (map id rows)).
Proof.
  unfold loadable. rewrite !andb_true_iff, !forallb_forall, distinct_NoDup.
  split.
  - intros [[H1 H2] H3]. split; [|split; [assumption|]].
    + intros r Hr. specialize (H1 r Hr). now destruct (Store.column_error r).
    + intros r Hr. apply id_absent. specialize (H3 r Hr). now apply negb_true_iff.
  - intros (H1 & H2 & H3). split; [split; [|assumption]|].
    + intros r Hr. now rewrite (H1 r Hr).
    + intros r Hr. apply negb_true_iff, id_absent. now apply H3.
Qed.

Lemma insert_fresh (r : Node) (t : Store.table) :
  Store.column_error r = None -> ~ In (id r) (map id (Store.rows t)) ->
  Store.insert r (Some t) = Returned (Some (extended t [r])).
Proof.
  intros Hc Hf. unfold Store.insert. rewrite Hc.
  now rewrite (proj2 (id_absent _ _) Hf).
Qed.

Lemma insert_returned (r : Node) (t : Store.table) (d : Store.database) :
  Store.insert r (Some t) = Returned d ->
  Store.column_error r = None /\ ~ In (id r) (map id (Store.rows t)) /\
  d = Some (extended t [r]).
Proof.
  unfold Store.insert. destruct (Store.column_error r); [discriminate|].
  destruct (existsb (fun x => id x =? id r) (Store.rows t)) eqn:E; [discriminate|].
  intros H. inversion H. split; [reflexivity|]. split; [|reflexivity].
  now apply id_absent.
Qed.

Lemma extended_extended (t : Store.table) (a b : list Node) :
  extended (extended t a) b = extended t (a ++ b).
Proof. unfold extended. cbn. now rewrite app_assoc. Qed.

(** [executemany] goes through when the tuples are loadable, and then
    the open transaction holds them after the rows it had; the lines of
    the generator are printed. *)
Lemma executemany_returns (es : list event) :
  forall (c : Store.connection) (t : Store.table),
    Store.pending c = Some t ->
    loadable (Store.rows t) (yielded es) = true ->
    executemany es c
    = (Returned tt, Store.set_pending (Some (extended t (yielded es))) c, printed es).
Proof.
  induction es as [|[s|r] es IH]; intros c t Hp Hl.
  - cbn. unfold pret, extended, Store.set_pending. rewrite app_nil_r.
    destruct c as [cm pd]. cbn in *. subst pd. now destruct t.
  - cbn [executemany yielded printed]. unfold pbind, py_print.
    now rewrite (IH c t Hp Hl).
  - cbn [executemany yielded printed] in *. apply loadable_spec in Hl.
    destruct Hl as (H1 & H2 & H3). cbn [map] in H2.
    inversion H2 as [|? ? Hn Hd]; subst.
    unfold pbind, execute. rewrite Hp.
    rewrite (insert_fresh r t (H1 r (or_introl eq_refl)) (H3 r (or_introl eq_refl))).
    rewrite (IH (Store.set_pending (Some (extended t [r])) c) (extended t [r]) eq_refl).
    + rewrite extended_extended. reflexivity.
    + apply loadable_spec. split; [|split; [assumption|]].
      * intros x Hx. apply H1. now right.
      * intros x Hx. cbn [extended Store.rows]. rewrite map_app, in_app_iff.
        intros [Hin|[E|[]]]; [now apply (H3 x (or_intror Hx))|].
        apply Hn. rewrite E. now apply in_map.
Qed.





Lemma ensure_schema_settled (d : Store.database) :
  ensure_schema (settled d)
  = (Returned tt, settled (Some (table_after_schema d)), lines_of_schema d).
Proof. rewrite ensure_schema_run. now destruct d. Qed.

(** [make_data] on a connection with nothing uncommitted, in terms of
    the insert of its events. *)
Lemma make_data_try_settled {rng : Type} (randint : Z -> Z -> rng -> Z * rng)
      (source : option (list Node)) (g : rng) (d : Store.database) :
  make_data_try randint source g (settled d)
  = let '(o, c2, out) :=
      (executemany (source_events randint source g) ;;~ conn_commit)
        (settled (Some (table_after_schema d))) in
    (o, c2, lines_of_schema d ++ out).
Proof.
  unfold make_data_try. unfold pbind at 1. rewrite ensure_schema_settled.
  assert (match source with
          | Some file => import_json file
          | None => random_fill randint g
          end
          = (executemany (source_events randint source g) ;;~ conn_commit)) as ->.
  { destruct source; reflexivity. }
  reflexivity.
Qed.

(** When the events are loadable the whole of them is inserted and
    committed. *)
Lemma make_data_loads {rng : Type} (randint : Z -> Z -> rng -> Z * rng)
      (source : option (list Node)) (g : rng) (d : Store.database) :
  loadable (Store.rows (table_after_schema d))
           (yielded (source_events randint source g)) = true ->
  make_data randint source g (settled d)
  = (Returned tt,
     settled (Some (extended (table_after_schema d)
                             (yielded (source_events randint source g)))),
     lines_of_schema d ++ printed (source_events randint source g)).
Proof.
  intros Hl. unfold make_data, try_except. rewrite make_data_try_settled.
  unfold pbind.
  rewrite (executemany_returns _ (settled (Some (table_after_schema d)))
             (table_after_schema d) eq_refl Hl).
  unfold conn_commit. cbn. now rewrite app_nil_r.
Qed.






(** ** What every method keeps *)

Lemma insert_keeps_key (r : Node) (d d' : Store.database) :
  Store.insert r d = Returned d' -> NoDup (Store.ids d) -> NoDup (Store.ids d').
Proof.
  destruct d as [t|]; [|discriminate]. intros H Hnd.
  apply insert_returned in H. destruct H as (_ & Hf & ->).
  cbn [Store.ids extended Store.rows] in *. rewrite map_app.
  apply NoDup_app; [assumption|repeat constructor; intros []|].
  (intros x Hx [<-|[]]). contradiction.
Qed.

Lemma executemany_keeps_key (es : list event) (c : Store.connection) :
  NoDup (Store.ids (Store.pending c)) ->
  NoDup (Store.ids (Store.pending (conn (executemany es c)))).
Proof.
  revert c. induction es as [|[s|r] es IH]; intros c Hnd; [exact Hnd| |].
  - cbn [executemany]. unfold pbind, py_print.
    specialize (IH c Hnd). destruct (executemany es c) as [[o c1] out1].
    destruct o; exact IH.
  - cbn [executemany]. unfold pbind, execute.
    destruct (Store.insert r (Store.pending c)) as [d|e] eqn:E; [|exact Hnd].
    specialize (IH (Store.set_pending d c) (insert_keeps_key _ _ _ E Hnd)).
    destruct (executemany es (Store.set_pending d c)) as [[o c1] out1].
    destruct o; exact IH.
Qed.

Lemma load_keeps_key (es : list event) (c : Store.connection) :
  keyed c -> keyed (conn ((executemany es ;;~ conn_commit) c)).
Proof.
  intros [H1 H2].
  pose proof (executemany_keeps_key es c H1) as K1.
  pose proof (executemany_committed es c) as K2.
  unfold pbind, conn_commit.
  destruct (executemany es c) as [[o c1] out1]. cbn [conn fst snd] in *.
  destruct o; unfold keyed; cbn.
  - split; exact K1.
  - split; [exact K1|now rewrite K2].
Qed.

Lemma ensure_schema_keeps_key (c : Store.connection) :
  keyed c -> keyed (conn (ensure_schema c)).
Proof.
  intros K. rewrite ensure_schema_run.
  destruct (Store.pending c); [exact K|]. split; constructor.
Qed.

Lemma rollback_keeps_key (c : Store.connection) : keyed c -> keyed (Store.rollback c).
Proof. intros [_ H]. split; exact H. Qed.

Lemma make_data_try_keeps_key {rng : Type} (randint : Z -> Z -> rng -> Z * rng)
      (source : option (list Node)) (g : rng) (c : Store.connection) :
  keyed c -> keyed (conn (make_data_try randint source g c)).
Proof.
  intros K. unfold make_data_try. unfold pbind at 1.
  pose proof (ensure_schema_keeps_key c K) as K1.
  pose proof (ensure_schema_run c) as Hs.
  destruct (ensure_schema c) as [[o1 c1] out1].
  assert (o1 = Returned tt) as ->.
  { destruct (Store.pending c); inversion Hs; reflexivity. }
  cbn [conn fst snd] in K1.
  assert (match source with
          | Some file => import_json file
          | None => random_fill randint g
          end
          = (executemany (source_events randint source g) ;;~ conn_commit)) as ->.
  { destruct source; reflexivity. }
  pose proof (load_keeps_key (source_events randint source g) c1 K1) as K2.
  destruct ((executemany (source_events randint source g) ;;~ conn_commit) c1)
    as [[o2 c2] out2].
  exact K2.
Qed.

(** X3. The key of [offices] survives every method: if no id occurs
    twice in the table, as the connection sees it and as committed, none
    does after [make_data], the resolver or [delete_all_data], however
    they end. *)
Theorem methods_keep_the_key :
  forall (rng : Type) (randint : Z -> Z -> rng -> Z * rng)
         (source : option (list Node)) (g : rng) (k : Z) (c : Store.connection),
    keyed c ->
    keyed (conn (make_data randint source g c)) /\
    keyed (conn (_get_staffs_by_staff_id k c)) /\
    keyed (conn (delete_all_data c)).
Proof.
  intros rng randint source g k c K. split; [|split].
  - pose proof (make_data_try_keeps_key randint source g c K) as K1.
    unfold make_data, try_except.
    destruct (make_data_try randint source g c) as [[o c1] out1].
    cbn [conn fst snd] in K1. destruct o; [exact K1|].
    cbn. now apply rollback_keeps_key.
  - rewrite get_staffs_run.
    destruct (Query.execute (Store.pending c) k); [exact K|].
    now apply rollback_keeps_key.
  - rewrite delete_all_run.
    destruct (Store.pending c); [split; constructor|].
    now apply rollback_keeps_key.
Qed.

Lemma methods_keep_the_key_witness :
  keyed (conn (make_data lcg_randint (Some duplicate_ids) 0 (loaded six_node_forest))) /\
  keyed (conn (_get_staffs_by_staff_id 4 (loaded six_node_forest))) /\
  keyed (conn (delete_all_data (loaded six_node_forest))).
Proof.
  apply (methods_keep_the_key Z lcg_randint (Some duplicate_ids) 0 4
           (loaded six_node_forest)).
  split; exact (proj1 well_formed_six).
Defined.

Lemma commit_last_clean {A : Type} (m : Py A) (c : Store.connection) (u : unit) :
  result ((m ;;~ conn_commit) c) = Returned u -> clean (conn ((m ;;~ conn_commit) c)).
Proof.
  unfold pbind, conn_commit. destruct (m c) as [[o c1] out1].
  destruct o; [reflexivity|discriminate].
Qed.

Lemma pbind_returned {A B : Type} (m : Py A) (k : Py B) (c : Store.connection) (b : B) :
  result ((m ;;~ k) c) = Returned b ->
  exists c1, conn ((m ;;~ k) c) = conn (k c1) /\ result (k c1) = Returned b.
Proof.
  unfold pbind. destruct (m c) as [[o c1] out1].
  destruct o as [a|e]; [|discriminate].
  intros H. exists c1. destruct (k c1) as [[o2 c2] out2].
  split; [reflexivity|exact H].
Qed.

Lemma make_data_try_clean {rng : Type} (randint : Z -> Z -> rng -> Z * rng)
      (source : option (list Node)) (g : rng) (c : Store.connection) (u : unit) :
  result (make_data_try randint source g c) = Returned u ->
  clean (conn (make_data_try randint source g c)).
Proof.
  unfold make_data_try. intros H.
  apply pbind_returned in H. destruct H as (c1 & -> & H).
  assert (match source with
          | Some file => import_json file
          | None => random_fill randint g
          end
          = (executemany (source_events randint source g) ;;~ conn_commit)) as E.
  { destruct source; reflexivity. }
  rewrite E in *. exact (commit_last_clean _ c1 u H).
Qed.

(** X4. No method lets an exception out and none leaves work
    uncommitted: [make_data] and [delete_all_data] always return [None]
    with the transaction committed or rolled back, and the resolver
    always returns (its rows or [None]) and leaves a connection without
    open changes as it found it or rolled back. *)
Theorem methods_return_and_settle :
  forall (rng : Type) (randint : Z -> Z -> rng -> Z * rng)
         (source : option (list Node)) (g : rng) (k : Z) (c : Store.connection),
    (result (make_data randint source g c) = Returned tt /\
     clean (conn (make_data randint source g c))) /\
    (result (delete_all_data c) = Returned tt /\
     clean (conn (delete_all_data c))) /\
    ((exists v, result (_get_staffs_by_staff_id k c) = Returned v) /\
     (clean c -> clean (conn (_get_staffs_by_staff_id k c)))).
Proof.
  intros rng randint source g k c. split; [|split].
  - pose proof (make_data_try_clean randint source g c) as H.
    unfold make_data, try_except.
    destruct (make_data_try randint source g c) as [[o c1] out1].
    destruct o as [[]|e]; [split; [reflexivity|exact (H tt eq_refl)]|].
    split; reflexivity.
  - rewrite delete_all_run. destruct (Store.pending c); split; reflexivity.
  - rewrite get_staffs_run.
    destruct (Query.execute (Store.pending c) k) as [l|e]; split.
    + now exists (Some l).
    + auto.
    + now exists None.
    + intros _. reflexivity.
Qed.

Lemma methods_return_and_settle_witness :
  clean (conn (_get_staffs_by_staff_id 4 (loaded six_node_forest))).
Proof.
  apply (proj2 (proj2 (proj2 (methods_return_and_settle
                                Z lcg_randint None 0 4 (loaded six_node_forest))))).
  reflexivity.
Defined.

(** ** More on the resolver *)

Lemma colleagues_self (tbl : list Node) (s d : Node) (o : Z) :
  In s tbl -> type s = 3 -> In d tbl -> type d = 2 ->
  parent_id s = Some (id d) -> parent_id d = Some o ->
  In (name s) (colleagues tbl o).
Proof.
  intros Hs Hts Hd Htd Hps Hpd. unfold colleagues.
  apply in_map. apply filter_In. split; [assumption|].
  rewrite Hts. cbn [Z.eqb Pos.eqb andb].
  apply existsb_exists. exists d. split; [assumption|].
  rewrite Htd, Hpd, Hps. cbn. now rewrite !Z.eqb_refl.
Qed.

(** X5. In a well-formed forest two staff members of one office get the
    same answer from the resolver, whichever departments of the office
    they are in: the names of all staff of the office, their own
    included. *)
Theorem same_office_same_answer :
  forall (c : Store.connection) (t : Store.table) (s1 d1 s2 d2 o : Node),
    Store.pending c = Some t ->
    well_formed (Store.rows t) ->
    In s1 (Store.rows t) -> type s1 = 3 ->
    In d1 (Store.rows t) -> parent_id s1 = Some (id d1) ->
    In s2 (Store.rows t) -> type s2 = 3 ->
    In d2 (Store.rows t) -> parent_id s2 = Some (id d2) ->
    In o (Store.rows t) ->
    parent_id d1 = Some (id o) -> parent_id d2 = Some (id o) ->
    _get_staffs_by_staff_id (id s1) c = _get_staffs_by_staff_id (id s2) c /\
    exists l,
      result (_get_staffs_by_staff_id (id s1) c) = Returned (Some l) /\
      In (name s1) l /\ In (name s2) l.
Proof.
  intros c t s1 d1 s2 d2 o Hp Hwf Hs1 Ht1 Hd1 Hp1 Hs2 Ht2 Hd2 Hp2 Ho Hq1 Hq2.
  rewrite (resolve_staff c t Hp Hwf s1 d1 o), (resolve_staff c t Hp Hwf s2 d2 o)
    by assumption.
  split; [reflexivity|].
  exists (colleagues (Store.rows t) (id o)). split; [reflexivity|].
  assert (forall s d, In s (Store.rows t) -> type s = 3 -> In d (Store.rows t) ->
                      parent_id s = Some (id d) -> type d = 2) as Hdept.
  { intros s d Hs Hts Hd Hps.
    destruct (parent_ok_staff _ _ (Chains.node_parent_ok _ Hwf s Hs) Hts)
      as (d' & Hd' & Hps' & Htd').
    assert (id d' = id d) as E by congruence.
    pose proof (QueryFacts.filter_id_unique _ d (proj1 Hwf) Hd) as F1.
    pose proof (QueryFacts.filter_id_unique _ d' (proj1 Hwf) Hd') as F2.
    rewrite E in F2. congruence. }
  split.
  - apply (colleagues_self _ s1 d1 (id o)); try assumption.
    exact (Hdept s1 d1 Hs1 Ht1 Hd1 Hp1).
  - apply (colleagues_self _ s2 d2 (id o)); try assumption.
    exact (Hdept s2 d2 Hs2 Ht2 Hd2 Hp2).
Qed.

Lemma same_office_same_answer_witness :
  _get_staffs_by_staff_id 4 (loaded six_node_forest)
  = _get_staffs_by_staff_id 6 (loaded six_node_forest).
Proof.
  apply (same_office_same_answer
           (loaded six_node_forest) (extended new_table six_node_forest)
           (mkNode 4 (Some 2) "A" 3) (mkNode 2 (Some 1) "Department 2" 2)
           (mkNode 6 (Some 3) "C" 3) (mkNode 3 (Some 1) "Department 3" 2)
           (mkNode 1 None "Office" 1) eq_refl well_formed_six);
    first [reflexivity | simpl; tauto].
Defined.

(** X6. Whatever the table holds, well-formed or not, every name the
    resolver returns is the name of a row of type 3 whose parent is a
    row of type 2 that has a parent itself: it never returns the name of
    an office, of a department or of a staff row hanging on anything but
    a department. *)
Theorem resolver_returns_staff_only :
  forall (c : Store.connection) (t : Store.table) (k : Z) (l : list string) (x : string),
    Store.pending c = Some t ->
    result (_get_staffs_by_staff_id k c) = Returned (Some l) ->
    In x l ->
    exists s d o,
      In s (Store.rows t) /\ type s = 3 /\ name s = x /\
      In d (Store.rows t) /\ type d = 2 /\
      parent_id s = Some (id d) /\ parent_id d = Some o.
Proof.
  intros c t k l x Hp Hr Hx. rewrite get_staffs_run, Hp in Hr.
  cbn [Query.execute] in Hr. unfold Query.select_staffs in Hr.
  destruct (Query.office_of (Store.rows t) k) as [[o|]|e]; cbn [obind] in Hr.
  - unfold result in Hr. cbn in Hr. inversion Hr; subst l. clear Hr.
    unfold Query.descendant_staff, Query.descendant_department in Hx.
    apply in_map_iff in Hx. destruct Hx as (s & Hn & Hs).
    apply filter_In in Hs. destruct Hs as [Hs Hf].
    apply andb_true_iff in Hf. destruct Hf as [Hts Hf].
    destruct (parent_id s) as [p|] eqn:Eps; [|discriminate].
    apply existsb_exists in Hf. destruct Hf as (q & Hq & Epq).
    apply Z.eqb_eq in Epq. subst q.
    apply in_map_iff in Hq. destruct Hq as (d & Ed & Hd).
    apply filter_In in Hd. destruct Hd as [Hd Hfd].
    apply andb_true_iff in Hfd. destruct Hfd as [Htd Hpd].
    apply opt_eqb_eq in Hpd.
    exists s, d, o. rewrite Z.eqb_eq in Hts, Htd. subst p. auto 10.
  - unfold result in Hr. cbn in Hr. inversion Hr; subst l.
    rewrite QueryFacts.descendant_staff_nil in Hx. contradiction.
  - discriminate.
Qed.

Lemma resolver_returns_staff_only_witness :
  exists s d o,
    In s six_node_forest /\ type s = 3 /\ name s = "B" /\
    In d six_node_forest /\ type d = 2 /\
    parent_id s = Some (id d) /\ parent_id d = Some o.
Proof.
  apply (resolver_returns_staff_only
           (loaded six_node_forest) (extended new_table six_node_forest)
           4 ["A"; "B"; "C"] "B" eq_refl eq_refl).
  simpl. tauto.
Defined.

Lemma filter_id_cases (tbl : list Node) (q : Z) :
  NoDup (map id tbl) ->
  filter (fun r => id r =? q) tbl = [] \/
  exists p, In p tbl /\ id p = q /\ filter (fun r => id r =? q) tbl = [p].
Proof.
  intros Hnd. destruct (in_dec Z.eq_dec q (map id tbl)) as [Hin|Hout].
  - right. apply in_map_iff in Hin. destruct Hin as (p & E & Hp).
    exists p. split; [assumption|]. split; [assumption|].
    rewrite <- E. now apply QueryFacts.filter_id_unique.
  - left. apply QueryFacts.filter_none. intros x Hx. apply Z.eqb_neq.
    intros E. apply Hout. rewrite <- E. now apply in_map.
Qed.

(** X7. When the row asked for has a parent, a grandparent and a
    great-grandparent row, [OFFSET 2] leaves two rows for a subquery
    that may give one: the statement fails, the resolver rolls back,
    prints the error and returns [None], and [print_staffs] raises a
    [TypeError].  A row that is its own parent is such a row, so a cycle
    ends in this error and not in an endless recursion. *)
Theorem long_chain_is_an_error :
  forall (c : Store.connection) (t : Store.table) (n0 n1 n2 n3 : Node),
    Store.pending c = Some t ->
    NoDup (map id (Store.rows t)) ->
    In n0 (Store.rows t) -> In n1 (Store.rows t) ->
    In n2 (Store.rows t) -> In n3 (Store.rows t) ->
    parent_id n0 = Some (id n1) ->
    parent_id n1 = Some (id n2) ->
    parent_id n2 = Some (id n3) ->
    _get_staffs_by_staff_id (id n0) c
    = (Returned None, Store.rollback c, [ErrorLine CardinalityViolation]) /\
    print_staffs (id n0) c
    = (Raised TypeError, Store.rollback c, [ErrorLine CardinalityViolation]).
Proof.
  intros c t n0 n1 n2 n3 Hp Hnd H0 H1 H2 H3 P0 P1 P2.
  assert (Query.office_of (Store.rows t) (id n0) = Raised CardinalityViolation) as E.
  { unfold Query.office_of, Query.ancestors.
    rewrite (Chains.seed_present _ _ Hnd H0). cbn [Query.recursive_union app].
    rewrite (Chains.step_to_parent _ _ _ Hnd H1 P0). cbn [Query.recursive_union app].
    rewrite (Chains.step_to_parent _ _ _ Hnd H2 P1). cbn [Query.recursive_union app].
    rewrite (Chains.step_to_parent _ _ _ Hnd H3 P2). reflexivity. }
  assert (_get_staffs_by_staff_id (id n0) c
          = (Returned None, Store.rollback c, [ErrorLine CardinalityViolation])) as G.
  { rewrite get_staffs_run, Hp. cbn [Query.execute]. unfold Query.select_staffs.
    now rewrite E. }
  split; [exact G|]. unfold print_staffs, pbind. now rewrite G.
Qed.

Lemma long_chain_is_an_error_witness :
  _get_staffs_by_staff_id 4 (loaded four_levels)
  = (Returned None, loaded four_levels, [ErrorLine CardinalityViolation]) /\
  _get_staffs_by_staff_id 1 (loaded self_parent)
  = (Returned None, loaded self_parent, [ErrorLine CardinalityViolation]).
Proof.
  split.
  - apply (long_chain_is_an_error
             (loaded four_levels) (extended new_table four_levels)
             (mkNode 4 (Some 3) "d" 3) (mkNode 3 (Some 2) "c" 3)
             (mkNode 2 (Some 1) "b" 2) (mkNode 1 None "a" 1) eq_refl);
      first [reflexivity | simpl; tauto | idtac].
    simpl. repeat (constructor; [simpl; intuition discriminate|]). constructor.
  - apply (long_chain_is_an_error
             (loaded self_parent) (extended new_table self_parent)
             (mkNode 1 (Some 1) "loop" 3) (mkNode 1 (Some 1) "loop" 3)
             (mkNode 1 (Some 1) "loop" 3) (mkNode 1 (Some 1) "loop" 3) eq_refl);
      first [reflexivity | simpl; tauto | idtac].
    simpl. repeat (constructor; [simpl; intuition discriminate|]). constructor.
Defined.

(** X8. In a table without repeated ids, a row that has no grandparent
    row (no parent, a parent id that is in no row, or a parent row
    without a parent row of its own) resolves to the empty list of rows,
    silently, whatever its type: so does a staff row whose department is
    missing, like an office or a department. *)
Theorem no_grandparent_no_rows :
  forall (c : Store.connection) (t : Store.table) (n : Node),
    Store.pending c = Some t ->
    NoDup (map id (Store.rows t)) ->
    In n (Store.rows t) ->
    (forall p g, In p (Store.rows t) -> In g (Store.rows t) ->
                 parent_id n = Some (id p) -> parent_id p = Some (id g) -> False) ->
    _get_staffs_by_staff_id (id n) c = (Returned (Some []), c, []).
Proof.
  intros c t n Hp Hnd Hn Hno.
  assert (Query.office_of (Store.rows t) (id n) = Returned None) as E.
  { unfold Query.office_of, Query.ancestors.
    rewrite (Chains.seed_present _ _ Hnd Hn). cbn [Query.recursive_union app].
    rewrite QueryFacts.recursive_term_single. cbn [Query.project Query.a_parent_id].
    destruct (parent_id n) as [q|] eqn:Pn; [|reflexivity].
    destruct (filter_id_cases (Store.rows t) q Hnd) as [->|(p & Hpin & Ep & ->)];
      [reflexivity|].
    cbn [map Query.recursive_union app].
    rewrite QueryFacts.recursive_term_single. cbn [Query.project Query.a_parent_id].
    destruct (parent_id p) as [q2|] eqn:Pp; [|reflexivity].
    destruct (filter_id_cases (Store.rows t) q2 Hnd) as [->|(g & Hgin & Eg & _)];
      [reflexivity|].
    exfalso. apply (Hno p g Hpin Hgin); congruence. }
  rewrite get_staffs_run, Hp. cbn [Query.execute]. unfold Query.select_staffs.
  rewrite E. cbn. now rewrite QueryFacts.descendant_staff_nil.
Qed.

Lemma no_grandparent_no_rows_witness :
  _get_staffs_by_staff_id 9 (loaded dangling) = (Returned (Some []), loaded dangling, []).
Proof.
  apply (no_grandparent_no_rows (loaded dangling) (extended new_table dangling)
           (mkNode 9 (Some 8) "lonely" 3) eq_refl).
  - simpl. repeat (constructor; [simpl; intuition discriminate|]). constructor.
  - simpl. tauto.
  - simpl. intros p g [<-|[]] _ E. discriminate.
Defined.






(** ** The generator: sizes, names, progress *)

Lemma Run_length (B : Z -> list Node -> Z -> Prop) (a b : Z) :
  (forall lo o hi, B lo o hi -> a <= Z.of_nat (List.length o) <= b) ->
  0 <= a -> 0 <= b ->
  forall n lo out hi, Run B n lo out hi ->
    a * Z.of_nat n <= Z.of_nat (List.length out) <= b * Z.of_nat n.
Proof.
  intros HB Ha Hb n lo out hi H. induction H as [|n lo mid hi o1 o2 H1 _ IH].
  - simpl. lia.
  - rewrite length_app. specialize (HB _ _ _ H1). lia.
Qed.

Lemma department_block_length (o lo : Z) (out : list Node) (hi : Z) :
  department_block o lo out hi -> 31 <= Z.of_nat (List.length out) <= 1001.
Proof.
  intros (nm & n & outs & Hn & -> & H). apply staff_run_all in H.
  destruct H as [_ Hlen]. cbn [List.length]. lia.
Qed.

Lemma office_block_length (lo : Z) (out : list Node) (hi : Z) :
  office_block lo out hi -> 1241 <= Z.of_nat (List.length out) <= 80081.
Proof.
  intros (nm & n & outd & Hn & -> & H).
  pose proof (Run_length _ 31 1001 (department_block_length (lo + 1))
                ltac:(lia) ltac:(lia) _ _ _ _ H).
  cbn [List.length]. lia.
Qed.

Lemma office_run_length (n : nat) (lo : Z) (out : list Node) (hi : Z) :
  Run office_block n lo out hi ->
  1241 * Z.of_nat n <= Z.of_nat (List.length out) <= 80081 * Z.of_nat n.
Proof. apply Run_length; [apply office_block_length|lia|lia]. Qed.

(** X11. Whatever [randint] returns within its bounds, one run of the
    generator yields between 124100 and 8008100 nodes, and every id is
    between 1 and the number of nodes: the last id is the size of the
    forest, and every id fits an INTEGER column. *)
Theorem generator_size :
  forall (rng : Type) (randint : Z -> Z -> rng -> Z * rng),
    (forall lo hi g, lo <= hi -> lo <= fst (randint lo hi g) <= hi) ->
    forall g : rng,
      let out := yielded (_create_random_data randint g) in
      124100 <= Z.of_nat (List.length out) <= 8008100 /\
      (forall n, In n out -> 1 <= id n <= Z.of_nat (List.length out)) /\
      (forall n, In n out -> Store.int4_ok (id n) = true).
Proof.
  intros rng randint Hrange g out.
  destruct (generator_blocks rng randint Hrange g) as [hi H]. fold out in H.
  pose proof (office_run_length _ _ _ _ H) as Hlen.
  pose proof (office_run_numbered _ _ _ _ H) as Hnum.
  assert (forall n, In n out -> 1 <= id n <= Z.of_nat (List.length out)) as Hid.
  { intros n Hn. pose proof (numbered_bounds _ _ _ _ Hnum Hn) as Hb.
    destruct Hnum as [-> _]. lia. }
  split; [lia|]. split; [assumption|].
  intros n Hn. specialize (Hid n Hn). unfold Store.int4_ok.
  apply andb_true_iff. split; apply Z.leb_le; lia.
Qed.

Lemma generator_size_witness :
  124100 <= Z.of_nat (List.length (yielded (_create_random_data lcg_randint 2024)))
  <= 8008100.
Proof.
  exact (proj1 (generator_size Z lcg_randint lcg_randint_range 2024)).
Defined.

Lemma printed_app (es1 es2 : list event) :
  printed (es1 ++ es2) = printed es1 ++ printed es2.
Proof.
  induction es1 as [|[s|n] es1 IH]; simpl; [reflexivity|now rewrite IH|assumption].
Qed.

Section GeneratorLines.
Variable rng : Type.
Variable randint : Z -> Z -> rng -> Z * rng.

(** A loop prints what its passes print, in order. *)
Lemma for_range_printed (body : nat -> Gen rng unit) (f : nat -> list line) :
  (forall k s, printed (snd (fst (body k s))) = f k) ->
  forall n first s,
    printed (snd (fst (for_range first n body s))) = List.concat (map f (seq first n)).
Proof.
  intros Hbody. induction n as [|n IH]; intros first s; [reflexivity|].
  cbn [for_range seq map List.concat]. unfold bind.
  pose proof (Hbody first s) as H1.
  destruct (body first s) as [[u es1] s1]. cbn [fst snd] in H1.
  pose proof (IH (S first) s1) as H2.
  destruct (for_range (S first) n body s1) as [[u2 es2] s2].
  cbn [fst snd] in *. now rewrite printed_app, H1, H2.
Qed.

Lemma concat_nils {A : Type} (l : list nat) :
  List.concat (map (fun _ : nat => @nil A) l) = [].
Proof. induction l; [reflexivity|assumption]. Qed.

Lemma staff_body_silent (d : Z) (k : nat) (s : locals rng) :
  printed (snd (fst (staff_body randint d k s))) = [].
Proof.
  unfold staff_body, bind, incr, rand, yield. cbn [i random].
  destruct (randint 1 10000000000 (random s)) as [r g1]. reflexivity.
Qed.

Lemma department_body_silent (o : Z) (k : nat) (s : locals rng) :
  printed (snd (fst (department_body randint o k s))) = [].
Proof.
  unfold department_body, bind, incr, rand, yield. cbn [i random].
  destruct (randint 1 10000000000 (random s)) as [r g1]. cbn [i random].
  destruct (randint 30 1000 g1) as [v g2].
  pose proof (for_range_printed _ _ (staff_body_silent (i s + 1))
                (Z.to_nat v) 0%nat {| i := i s + 1; random := g2 |}) as H.
  rewrite concat_nils in H.
  destruct (for_range 0 (Z.to_nat v) (staff_body randint (i s + 1))
              {| i := i s + 1; random := g2 |}) as [[u es] s'].
  cbn [fst snd app printed] in *. exact H.
Qed.

Lemma office_body_line (k : nat) (s : locals rng) :
  printed (snd (fst (office_body randint k s))) = [progress_line k].
Proof.
  unfold office_body, bind, incr, rand, yield, print. cbn [i random].
  destruct (randint 1 10000000000 (random s)) as [r g1]. cbn [i random].
  destruct (randint 40 80 g1) as [v g2].
  pose proof (for_range_printed _ _ (department_body_silent (i s + 1))
                (Z.to_nat v) 0%nat {| i := i s + 1; random := g2 |}) as H.
  rewrite concat_nils in H.
  destruct (for_range 0 (Z.to_nat v) (department_body randint (i s + 1))
              {| i := i s + 1; random := g2 |}) as [[u es] s'].
  cbn [fst snd app printed] in *. now rewrite H.
Qed.

End GeneratorLines.

Lemma concat_singletons {A : Type} (f : nat -> A) (l : list nat) :
  List.concat (map (fun k => [f k]) l) = map f l.
Proof. induction l as [|k l IH]; [reflexivity|]. cbn. now rewrite IH. Qed.

Lemma generator_printed {rng : Type} (randint : Z -> Z -> rng -> Z * rng) (g : rng) :
  printed (_create_random_data randint g) = map progress_line (seq 0 100).
Proof.
  unfold _create_random_data.
  rewrite (for_range_printed rng _ (fun k => [progress_line k])
             (office_body_line rng randint)).
  apply concat_singletons.
Qed.

(** X12. Whatever [randint] returns, the generator prints a hundred
    progress lines while it is consumed, "0/100" to "99/100" in this
    order, one at the start of each pass of the office loop and none in
    the inner loops. *)
Theorem generator_progress :
  forall (rng : Type) (randint : Z -> Z -> rng -> Z * rng) (g : rng),
    printed (_create_random_data randint g) = map progress_line (seq 0 100) /\
    (forall (k : nat) (s : locals rng),
        exists n rest,
          snd (fst (office_body randint k s))
          = Print (dec (Z.of_nat k) ++ "/100")%string :: Yield n :: rest /\
          type n = 1 /\ id n = i s + 1 /\ printed rest = []).
Proof.
  intros rng randint g. split.
  - apply generator_printed.
  - intros k s.
    pose proof (office_body_line rng randint k s) as Hl. revert Hl.
    unfold office_body, bind, incr, rand, yield, print. cbn [i random].
    destruct (randint 1 10000000000 (random s)) as [r g1]. cbn [i random].
    destruct (randint 40 80 g1) as [v g2].
    destruct (for_range 0 (Z.to_nat v) (department_body randint (i s + 1))
                {| i := i s + 1; random := g2 |}) as [[u es] s'].
    cbn [fst snd app printed]. intros Hl.
    eexists. eexists. split; [reflexivity|]. split; [reflexivity|].
    split; [reflexivity|]. unfold progress_line in Hl. now inversion Hl.
Qed.

(** *** Names and columns *)

Lemma nb_digits_double (d : Decimal.uint) :
  (Decimal.nb_digits (Decimal.Little.double d) <= S (Decimal.nb_digits d))%nat /\
  (Decimal.nb_digits (Decimal.Little.succ_double d) <= S (Decimal.nb_digits d))%nat.
Proof. induction d; simpl; lia. Qed.

Lemma nb_digits_to_little_uint (p : positive) :
  (Decimal.nb_digits (Pos.to_little_uint p) <= Pos.size_nat p)%nat.
Proof.
  induction p as [p IH|p IH|]; simpl.
  - pose proof (proj2 (nb_digits_double (Pos.to_little_uint p))). lia.
  - pose proof (proj1 (nb_digits_double (Pos.to_little_uint p))). lia.
  - lia.
Qed.

Lemma string_of_uint_length (d : Decimal.uint) :
  String.length (NilEmpty.string_of_uint d) = Decimal.nb_digits d.
Proof. induction d; simpl; congruence. Qed.

(** The decimal text of a number the generator draws for a name has at
    most 34 characters (it has at most 11; the binary size is enough
    here). *)
Lemma dec_length (r : Z) :
  1 <= r <= 10000000000 -> (String.length (dec r) <= 34)%nat.
Proof.
  intros Hr. destruct r as [|p|p]; try lia.
  unfold dec. cbn [Z.to_int NilZero.string_of_int].
  pose proof (DecimalPos.Unsigned.to_uint_nonnil p) as Hnil.
  assert (NilZero.string_of_uint (Pos.to_uint p) = NilEmpty.string_of_uint (Pos.to_uint p))
    as ->.
  { unfold NilZero.string_of_uint. destruct (Pos.to_uint p); [contradiction|..]; reflexivity. }
  rewrite string_of_uint_length. unfold Pos.to_uint.
  rewrite DecimalFacts.nb_digits_rev.
  pose proof (nb_digits_to_little_uint p) as H1.
  assert (Pos.size_nat p <= 34)%nat as H2.
  { clear H1 Hnil.
    destruct (Pos.compare_spec p 10000000000) as [E|Hlt|Hgt].
    - subst p. vm_compute. repeat constructor.
    - pose proof (Pos.size_nat_monotone p 10000000000 Hlt) as Hm.
      replace (Pos.size_nat 10000000000) with 34%nat in Hm
        by (vm_compute; reflexivity).
      exact Hm.
    - apply Pos2Z.pos_lt_pos in Hgt. lia. }
  lia.
Qed.

Lemma char_length_le (s : string) : (Store.char_length s <= String.length s)%nat.
Proof.
  induction s as [|a s IH]; simpl; [lia|].
  destruct (Z.land (Z.of_nat (nat_of_ascii a)) 192 =? 128); lia.
Qed.

Lemma char_length_app (s1 s2 : string) :
  Store.char_length (s1 ++ s2)%string
  = (Store.char_length s1 + Store.char_length s2)%nat.
Proof.
  induction s1 as [|a s1 IH]; simpl; [reflexivity|].
  destruct (Z.land (Z.of_nat (nat_of_ascii a)) 192 =? 128); rewrite IH; reflexivity.
Qed.

Lemma generated_name_fits (n : Node) :
  type n = 1 \/ type n = 2 \/ type n = 3 ->
  generated_name n -> (Store.char_length (name n) <= 44)%nat.
Proof.
  intros Ht (r & Hr & ->). rewrite char_length_app.
  pose proof (dec_length r Hr). pose proof (char_length_le (dec r)).
  assert (Store.char_length (name_prefix (type n)) <= 10)%nat.
  { destruct Ht as [E|[E|E]]; rewrite E; vm_compute; lia. }
  lia.
Qed.

Section GeneratorNames.
Variable rng : Type.
Variable randint : Z -> Z -> rng -> Z * rng.
Hypothesis randint_range :
  forall (lo hi : Z) (g : rng), lo <= hi -> lo <= fst (randint lo hi g) <= hi.

Lemma for_range_all (body : nat -> Gen rng unit) (P : Node -> Prop) :
  (forall k, all_yielded (body k) P) ->
  forall n first, all_yielded (for_range first n body) P.
Proof.
  intros Hbody. induction n as [|n IH]; intros first s; [constructor|].
  cbn [for_range]. unfold bind.
  pose proof (Hbody first s) as H1.
  destruct (body first s) as [[u es1] s1]. cbn [fst snd] in H1.
  pose proof (IH (S first) s1) as H2.
  destruct (for_range (S first) n body s1) as [[u2 es2] s2].
  cbn [fst snd] in *. rewrite yielded_app. apply Forall_app. now split.
Qed.

Lemma staff_body_named (d : Z) (k : nat) :
  all_yielded (staff_body randint d k) generated_name.
Proof.
  intros s. unfold staff_body, bind, incr, rand, yield. cbn [i random].
  pose proof (randint_range 1 10000000000 (random s) ltac:(lia)) as Hr.
  destruct (randint 1 10000000000 (random s)) as [r g1]. cbn [fst snd app yielded] in *.
  constructor; [|constructor]. exists r. split; [assumption|reflexivity].
Qed.

Lemma department_body_named (o : Z) (k : nat) :
  all_yielded (department_body randint o k) generated_name.
Proof.
  intros s. unfold department_body, bind, incr, rand, yield. cbn [i random].
  pose proof (randint_range 1 10000000000 (random s) ltac:(lia)) as Hr.
  destruct (randint 1 10000000000 (random s)) as [r g1]. cbn [i random fst] in *.
  destruct (randint 30 1000 g1) as [v g2].
  pose proof (for_range_all _ _ (staff_body_named (i s + 1))
                (Z.to_nat v) 0%nat {| i := i s + 1; random := g2 |}) as H.
  destruct (for_range 0 (Z.to_nat v) (staff_body randint (i s + 1))
              {| i := i s + 1; random := g2 |}) as [[u es] s'].
  cbn [fst snd app yielded] in *.
  constructor; [|assumption]. exists r. split; [assumption|reflexivity].
Qed.

Lemma office_body_named (k : nat) :
  all_yielded (office_body randint k) generated_name.
Proof.
  intros s. unfold office_body, bind, incr, rand, yield, print. cbn [i random].
  pose proof (randint_range 1 10000000000 (random s) ltac:(lia)) as Hr.
  destruct (randint 1 10000000000 (random s)) as [r g1]. cbn [i random fst] in *.
  destruct (randint 40 80 g1) as [v g2].
  pose proof (for_range_all _ _ (department_body_named (i s + 1))
                (Z.to_nat v) 0%nat {| i := i s + 1; random := g2 |}) as H.
  destruct (for_range 0 (Z.to_nat v) (department_body randint (i s + 1))
              {| i := i s + 1; random := g2 |}) as [[u es] s'].
  cbn [fst snd app yielded] in *.
  constructor; [|assumption]. exists r. split; [assumption|reflexivity].
Qed.

Lemma generator_named (g : rng) :
  Forall generated_name (yielded (_create_random_data randint g)).
Proof.
  exact (for_range_all _ _ office_body_named 100 0%nat {| i := 0; random := g |}).
Qed.

End GeneratorNames.

(** X13. Whatever [randint] returns within its bounds, the name of every
    generated node is the prefix of its type ("Офис_", "Отдел_" or
    "Сотрудник_") followed by the decimal text of a number between 1
    and 10000000000, and has at most 44 characters. *)
Theorem generator_names :
  forall (rng : Type) (randint : Z -> Z -> rng -> Z * rng),
    (forall lo hi g, lo <= hi -> lo <= fst (randint lo hi g) <= hi) ->
    forall (g : rng) (n : Node),
      In n (yielded (_create_random_data randint g)) ->
      generated_name n /\ (Store.char_length (name n) <= 44)%nat.
Proof.
  intros rng randint Hrange g n Hn.
  pose proof (generator_named rng randint Hrange g) as Hall.
  rewrite Forall_forall in Hall. specialize (Hall n Hn).
  split; [assumption|]. apply generated_name_fits; [|assumption].
  destruct (generator_blocks rng randint Hrange g) as [hi H].
  pose proof (office_run_numbered _ _ _ _ H) as [_ Hids].
  assert (NoDup (map id (yielded (_create_random_data randint g)))) as Hnd.
  { rewrite Hids. apply counter_values_NoDup. }
  pose proof (parents_first_well_formed _ Hnd (office_run_parents_first _ _ _ _ H))
    as [_ Hok].
  rewrite Forall_forall in Hok. exact (parent_ok_type _ n (Hok n Hn)).
Qed.

Lemma office_body_head {rng : Type} (randint : Z -> Z -> rng -> Z * rng)
      (k : nat) (s : locals rng) :
  exists rest,
    snd (fst (office_body randint k s))
    = Print (dec (Z.of_nat k) ++ "/100")%string
      :: Yield (mkNode (i s + 1) None
                  ("Офис_" ++ dec (fst (randint 1 10000000000 (random s))))%string 1)
      :: rest.
Proof.
  unfold office_body, bind, incr, rand, yield, print. cbn [i random].
  destruct (randint 1 10000000000 (random s)) as [r g1]. cbn [i random fst].
  destruct (randint 40 80 g1) as [v g2].
  destruct (for_range 0 (Z.to_nat v) (department_body randint (i s + 1))
              {| i := i s + 1; random := g2 |}) as [[u es] s'].
  cbn. eexists. reflexivity.
Qed.

Lemma generator_head {rng : Type} (randint : Z -> Z -> rng -> Z * rng) (g : rng) :
  exists rest,
    _create_random_data randint g
    = Print "0/100"
      :: Yield (mkNode 1 None ("Офис_" ++ dec (fst (randint 1 10000000000 g)))%string 1)
      :: rest.
Proof.
  unfold _create_random_data.
  change (for_range 0 100 (office_body randint))
    with (bind (office_body randint 0)
               (fun _ => for_range 1 99 (office_body randint))).
  unfold bind.
  destruct (office_body_head randint 0 {| i := 0; random := g |}) as [rest E].
  destruct (office_body randint 0 {| i := 0; random := g |}) as [[u es1] s1].
  cbn [fst snd] in E. subst es1.
  destruct (for_range 1 99 (office_body randint) s1) as [[u2 es2] s2].
  cbn. eexists. reflexivity.
Qed.

Lemma generator_names_witness :
  (Store.char_length
     ("Офис_" ++ dec (fst (lcg_randint 1 10000000000 2024)))%string <= 44)%nat.
Proof.
  apply (proj2 (generator_names Z lcg_randint lcg_randint_range 2024
                  (mkNode 1 None
                     ("Офис_" ++ dec (fst (lcg_randint 1 10000000000 2024)))%string 1)
                  ltac:(destruct (generator_head lcg_randint 2024) as [rest E];
                        rewrite E; cbn [yielded]; now left))).
Defined.

(** Every generated node fits the columns of [offices]. *)
Lemma generator_columns {rng : Type} (randint : Z -> Z -> rng -> Z * rng) :
  (forall lo hi g, lo <= hi -> lo <= fst (randint lo hi g) <= hi) ->
  forall (g : rng) (n : Node),
    In n (yielded (_create_random_data randint g)) -> Store.column_error n = None.
Proof.
  intros Hrange g n Hn.
  set (out := yielded (_create_random_data randint g)) in *.
  destruct (generator_blocks rng randint Hrange g) as [hi H]. fold out in H.
  pose proof (office_run_length _ _ _ _ H) as Hlen.
  pose proof (office_run_numbered _ _ _ _ H) as Hnum.
  assert (forall x, In x out -> 1 <= id x <= 8008100) as Hid.
  { intros x Hx. pose proof (numbered_bounds _ _ _ _ Hnum Hx) as Hb.
    destruct Hnum as [-> _]. lia. }
  assert (NoDup (map id out)) as Hnd.
  { destruct Hnum as [_ ->]. apply counter_values_NoDup. }
  pose proof (parents_first_well_formed _ Hnd (office_run_parents_first _ _ _ _ H))
    as [_ Hok].
  rewrite Forall_forall in Hok. specialize (Hok n Hn).
  pose proof (generator_named rng randint Hrange g) as Hall.
  rewrite Forall_forall in Hall. specialize (Hall n Hn).
  pose proof (parent_ok_type _ n Hok) as Ht.
  pose proof (generated_name_fits n Ht Hall) as Hname.
  assert (match parent_id n with Some p => Store.int4_ok p | None => true end = true)
    as Hpar.
  { destruct Ht as [Ht|[Ht|Ht]].
    - now rewrite (parent_ok_office _ _ Hok Ht).
    - destruct (parent_ok_department _ _ Hok Ht) as (o & Ho & -> & _).
      specialize (Hid o Ho). unfold Store.int4_ok.
      apply andb_true_iff. split; apply Z.leb_le; lia.
    - destruct (parent_ok_staff _ _ Hok Ht) as (d & Hd & -> & _).
      specialize (Hid d Hd). unfold Store.int4_ok.
      apply andb_true_iff. split; apply Z.leb_le; lia. }
  unfold Store.column_error. rewrite Hpar.
  assert (Store.int4_ok (id n) = true) as ->.
  { specialize (Hid n Hn). unfold Store.int4_ok.
    apply andb_true_iff. split; apply Z.leb_le; lia. }
  assert (Store.int4_ok (type n) = true) as ->.
  { destruct Ht as [E|[E|E]]; rewrite E; reflexivity. }
  cbn [andb negb].
  destruct (Nat.ltb_spec 255 (Store.char_length (name n))); [lia|reflexivity].
Qed.

Lemma generator_loadable {rng : Type} (randint : Z -> Z -> rng -> Z * rng) :
  (forall lo hi g, lo <= hi -> lo <= fst (randint lo hi g) <= hi) ->
  forall g : rng, loadable [] (yielded (_create_random_data randint g)) = true.
Proof.
  intros Hrange g. apply loadable_spec. split; [|split].
  - intros r Hr. now apply (generator_columns randint Hrange g).
  - destruct (generator_blocks rng randint Hrange g) as [hi H].
    pose proof (office_run_numbered _ _ _ _ H) as [_ Hids].
    rewrite Hids. apply counter_values_NoDup.
  - intros r _ [].
Qed.

(** X14. Whatever [randint] returns within its bounds, [make_data]
    without a file on a store whose table is new or empty always goes
    through: every generated node is accepted by its columns and by the
    key, the table then holds exactly the generated forest in the order
    of emission, committed, and the hundred progress lines were printed
    (after the line of the new table, if it was created). *)
Theorem random_fill_fills :
  forall (rng : Type) (randint : Z -> Z -> rng -> Z * rng),
    (forall lo hi g, lo <= hi -> lo <= fst (randint lo hi g) <= hi) ->
    forall (g : rng) (d : Store.database),
      Store.rows (table_after_schema d) = [] ->
      make_data randint None g (settled d)
      = (Returned tt,
         settled (Some (extended (table_after_schema d)
                                 (yielded (_create_random_data randint g)))),
         lines_of_schema d ++ map progress_line (seq 0 100)).
Proof.
  intros rng randint Hrange g d Hrows.
  rewrite (make_data_loads randint None g d); cbn [source_events].
  - now rewrite generator_printed.
  - rewrite Hrows. now apply generator_loadable.
Qed.

Lemma random_fill_fills_witness :
  make_data lcg_randint None 2024 (settled None)
  = (Returned tt,
     settled (Some (extended new_table (yielded (_create_random_data lcg_randint 2024)))),
     Text "База данных успешно создана" :: map progress_line (seq 0 100)).
Proof.
  apply (random_fill_fills Z lcg_randint lcg_randint_range 2024 None). reflexivity.
Defined.

(** ** Loading twice, wiping, loading again *)

(** When the first tuple of the events has an id the table holds,
    [make_data] stops at it: what was printed before it, then the error
    of the key; the table is as it was. *)
Lemma make_data_first_present {rng : Type} (randint : Z -> Z -> rng -> Z * rng)
      (source : option (list Node)) (g : rng) (t : Store.table)
      (before : list string) (r : Node) (rest : list event) :
  source_events randint source g = map Print before ++ Yield r :: rest ->
  Store.column_error r = None ->
  In (id r) (map id (Store.rows t)) ->
  make_data randint source g (settled (Some t))
  = (Returned tt, settled (Some t),
     map Text before ++ [ErrorLine (UniqueViolation (id r))]).
Proof.
  intros Hev Hcol Hin.
  assert (executemany (map Print before ++ Yield r :: rest) (settled (Some t))
          = (Raised (UniqueViolation (id r)), settled (Some t), map Text before)) as E.
  { clear Hev. induction before as [|b before IH].
    - cbn [map app executemany]. unfold pbind, execute. cbn [Store.pending settled].
      unfold Store.insert. rewrite Hcol.
      destruct (existsb (fun x => id x =? id r) (Store.rows t)) eqn:Ex; [reflexivity|].
      apply id_absent in Ex. contradiction.
    - cbn [map app executemany]. unfold pbind, py_print. now rewrite IH. }
  unfold make_data, try_except. rewrite make_data_try_settled, Hev.
  cbn [table_after_schema lines_of_schema]. unfold pbind. rewrite E. reflexivity.
Qed.

(** X15. Whatever [randint] returns within its bounds, [make_data]
    without a file on a table that holds a row with id 1 loads nothing:
    the counter starts at 0 again, so the first office has id 1; after
    the first progress line the insert fails on the key, the transaction
    is rolled back and the table is as it was.  It is so in particular
    for a second random fill after a first one. *)
Theorem random_fill_twice :
  forall (rng : Type) (randint : Z -> Z -> rng -> Z * rng),
    (forall lo hi g, lo <= hi -> lo <= fst (randint lo hi g) <= hi) ->
    (forall (g : rng) (t : Store.table),
        In 1 (map id (Store.rows t)) ->
        make_data randint None g (settled (Some t))
        = (Returned tt, settled (Some t),
           [Text "0/100"; ErrorLine (UniqueViolation 1)])) /\
    (forall (g1 g2 : rng) (d : Store.database),
        Store.rows (table_after_schema d) = [] ->
        let first := conn (make_data randint None g1 (settled d)) in
        make_data randint None g2 first
        = (Returned tt, first, [Text "0/100"; ErrorLine (UniqueViolation 1)])).
Proof.
  intros rng randint Hrange.
  assert (forall (g : rng) (t : Store.table),
             In 1 (map id (Store.rows t)) ->
             make_data randint None g (settled (Some t))
             = (Returned tt, settled (Some t),
                [Text "0/100"; ErrorLine (UniqueViolation 1)])) as Hgen.
  { intros g t Hin.
    destruct (generator_head randint g) as [rest E].
    apply (make_data_first_present randint None g t ["0/100"%string]
             (mkNode 1 None ("Офис_" ++ dec (fst (randint 1 10000000000 g)))%string 1)
             rest).
    - cbn [source_events map app]. exact E.
    - apply (generator_columns randint Hrange g).
      rewrite E. cbn [yielded]. now left.
    - exact Hin. }
  split; [exact Hgen|].
  intros g1 g2 d Hrows first. subst first.
  rewrite (make_data_loads randint None g1 d).
  2:{ cbn [source_events]. rewrite Hrows. now apply generator_loadable. }
  cbn [conn fst snd source_events]. apply Hgen.
  cbn [extended Store.rows]. rewrite map_app. apply in_or_app. right.
  destruct (generator_head randint g1) as [rest E]. rewrite E.
  cbn [yielded map id]. now left.
Qed.

Lemma random_fill_twice_witness :
  make_data lcg_randint None 7 (loaded six_node_forest)
  = (Returned tt, loaded six_node_forest, [Text "0/100"; ErrorLine (UniqueViolation 1)]).
Proof.
  apply (proj1 (random_fill_twice Z lcg_randint lcg_randint_range) 7
               (extended new_table six_node_forest)).
  simpl. tauto.
Defined.






(** ** The generated forest, resolved *)

Lemma filter_or_length {A : Type} (f g : A -> bool) (l : list A) :
  (forall x, In x l -> f x = true -> g x = true -> False) ->
  List.length (filter (fun x => f x || g x) l)
  = (List.length (filter f l) + List.length (filter g l))%nat.
Proof.
  induction l as [|a l IH]; intros H; [reflexivity|].
  cbn [filter]. specialize (IH (fun x Hx => H x (or_intror Hx))).
  pose proof (H a (or_introl eq_refl)) as Ha.
  destruct (f a), (g a); cbn [orb List.length]; first [lia | exfalso; now apply Ha].
Qed.

(** The rows of the downward phase are as many as the staff of the
    departments it went through. *)
Lemma descendant_staff_length (tbl : list Node) (ds : list Z) :
  NoDup ds ->
  List.length (Query.descendant_staff tbl ds)
  = list_sum (map (fun k => List.length (staff_of tbl k)) ds).
Proof.
  unfold Query.descendant_staff. rewrite length_map.
  induction ds as [|k ds IH]; intros Hnd.
  - cbn [map list_sum]. apply length_zero_iff_nil. apply QueryFacts.filter_none.
    intros x _. destruct (type x =? 3), (parent_id x); reflexivity.
  - inversion Hnd as [|? ? Hk Hnd']; subst.
    change (list_sum (map (fun k0 => List.length (staff_of tbl k0)) (k :: ds)))
      with (List.length (staff_of tbl k)
            + list_sum (map (fun k0 => List.length (staff_of tbl k0)) ds))%nat.
    rewrite <- (IH Hnd'). unfold staff_of, children.
    rewrite <- filter_or_length.
    + f_equal. apply filter_ext. intros x.
      destruct (type x =? 3); [|reflexivity].
      destruct (parent_id x) as [p|]; [|reflexivity].
      cbn [andb existsb opt_eqb]. reflexivity.
    + intros x _ H1 H2. apply andb_true_iff in H1, H2.
      destruct H1 as [_ H1], H2 as [_ H2].
      destruct (parent_id x) as [p|]; [|discriminate].
      cbn [opt_eqb] in H1. apply Z.eqb_eq in H1. subst p.
      apply existsb_exists in H2. destruct H2 as (q & Hq & E).
      apply Z.eqb_eq in E. subst q. contradiction.
Qed.

Lemma list_sum_bounds (f : Z -> nat) (a b : Z) (ds : list Z) :
  (forall k, In k ds -> a <= Z.of_nat (f k) <= b) ->
  a * Z.of_nat (List.length ds) <= Z.of_nat (list_sum (map f ds))
  <= b * Z.of_nat (List.length ds).
Proof.
  induction ds as [|k ds IH]; intros H; [simpl; lia|].
  change (list_sum (map f (k :: ds))) with (f k + list_sum (map f ds))%nat.
  cbn [List.length].
  specialize (IH (fun x Hx => H x (or_intror Hx))).
  pose proof (H k (or_introl eq_refl)). lia.
Qed.

Lemma NoDup_ids_filter (f : Node -> bool) (l : list Node) :
  NoDup (map id l) -> NoDup (map id (filter f l)).
Proof.
  induction l as [|a l IH]; intros H; [constructor|].
  inversion H as [|? ? Hn Hd]; subst. cbn [filter].
  destruct (f a); [|now apply IH].
  cbn [map]. constructor; [|now apply IH].
  intros Hin. apply Hn. apply in_map_iff in Hin. destruct Hin as (x & E & Hx).
  apply filter_In in Hx. rewrite <- E. apply in_map. exact (proj1 Hx).
Qed.

Section GeneratedForest.
Variable rng : Type.
Variable randint : Z -> Z -> rng -> Z * rng.
Hypothesis randint_range :
  forall (lo hi : Z) (g : rng), lo <= hi -> lo <= fst (randint lo hi g) <= hi.
Variable g : rng.

Let out : list Node := yielded (_create_random_data randint g).

Lemma generator_forest : well_formed out.
Proof.
  destruct (generator_blocks rng randint randint_range g) as [hi H].
  pose proof (office_run_numbered _ _ _ _ H) as [_ Hids].
  apply parents_first_well_formed.
  - unfold out. rewrite Hids. apply counter_values_NoDup.
  - exact (office_run_parents_first _ _ _ _ H).
Qed.

(** The staff of a generated office are between 40 * 30 and 80 * 1000. *)
Lemma generated_office_staff (o : Node) :
  In o out -> type o = 1 ->
  1200 <= Z.of_nat (List.length (colleagues out (id o))) <= 80000.
Proof.
  intros Ho Ht.
  destruct (generator_blocks rng randint randint_range g) as [hi H]. fold out in H.
  rewrite <- Chains.downward_colleagues.
  assert (Query.descendant_department out (Some (id o))
          = map id (departments_of out (id o))) as E by reflexivity.
  rewrite E, descendant_staff_length
    by (apply NoDup_ids_filter; exact (proj1 generator_forest)).
  pose proof (office_run_departments_bound _ _ _ _ H o Ho Ht) as Hd.
  pose proof (list_sum_bounds (fun k => List.length (staff_of out k)) 30 1000
                (map id (departments_of out (id o)))) as Hs.
  rewrite length_map in Hs.
  assert (forall k, In k (map id (departments_of out (id o))) ->
                    30 <= Z.of_nat (List.length (staff_of out k)) <= 1000) as Hk.
  { intros k Hin. apply in_map_iff in Hin. destruct Hin as (d & <- & Hdin).
    apply filter_In in Hdin. destruct Hdin as [Hdin Hf].
    apply andb_true_iff in Hf. destruct Hf as [Htd _]. apply Z.eqb_eq in Htd.
    exact (office_run_staff_bound _ _ _ _ H d Hdin Htd). }
  specialize (Hs Hk). lia.
Qed.

End GeneratedForest.

(** X19. After [make_data] without a file has filled a new or empty
    table, the resolver called with the id of any generated Staff node
    returns, without error, the names of the staff of that node's
    office: the node's own name is among them, and they are between
    1200 (40 departments of 30) and 80000 (80 departments of 1000). *)
Theorem generated_staff_resolve :
  forall (rng : Type) (randint : Z -> Z -> rng -> Z * rng),
    (forall lo hi g, lo <= hi -> lo <= fst (randint lo hi g) <= hi) ->
    forall (g : rng) (d : Store.database) (s : Node),
      Store.rows (table_after_schema d) = [] ->
      In s (yielded (_create_random_data randint g)) -> type s = 3 ->
      let filled := conn (make_data randint None g (settled d)) in
      exists l,
        _get_staffs_by_staff_id (id s) filled = (Returned (Some l), filled, []) /\
        In (name s) l /\
        1200 <= Z.of_nat (List.length l) <= 80000.
Proof.
  intros rng randint Hrange g d s Hrows Hs Hts filled. subst filled.
  rewrite (make_data_loads randint None g d)
    by (cbn [source_events]; rewrite Hrows; now apply generator_loadable).
  cbn [conn fst snd source_events].
  set (out := yielded (_create_random_data randint g)) in *.
  set (t := extended (table_after_schema d) out).
  assert (Store.rows t = out) as Et.
  { unfold t. cbn [extended Store.rows]. now rewrite Hrows. }
  pose proof (generator_forest rng randint Hrange g) as Hwf. fold out in Hwf.
  assert (well_formed (Store.rows t)) as Hwft by now rewrite Et.
  pose proof (Chains.node_parent_ok _ Hwf s Hs) as Hok.
  destruct (parent_ok_staff _ _ Hok Hts) as (dp & Hd & Hps & Htd).
  destruct (parent_ok_department _ _ (Chains.node_parent_ok _ Hwf dp Hd) Htd)
    as (o & Ho & Hpd & Hto).
  exists (colleagues out (id o)). split; [|split].
  - rewrite <- Et.
    apply (resolve_staff (settled (Some t)) t eq_refl Hwft s dp o);
      rewrite ?Et; assumption.
  - now apply (colleagues_self out s dp (id o)).
  - now apply (generated_office_staff rng randint Hrange g o).
Qed.

(** The third node of a run is a staff member: the first of the first
    department of the first office. *)
Lemma generator_first_staff {rng : Type} (randint : Z -> Z -> rng -> Z * rng) :
  (forall lo hi g, lo <= hi -> lo <= fst (randint lo hi g) <= hi) ->
  forall g : rng,
    exists nm, In (mkNode 3 (Some 2) nm 3) (yielded (_create_random_data randint g)).
Proof.
  intros Hrange g.
  destruct (generator_blocks rng randint Hrange g) as [hi H].
  inversion H as [|n lo mid hi' o1 o2 HB HR]; subst.
  destruct HB as (nm1 & n1 & outd & Hn1 & -> & Hd).
  inversion Hd as [|n2 lo2 mid2 hi2 p1 p2 HB2 HR2]; subst; [simpl in Hn1; lia|].
  destruct HB2 as (nm2 & n3 & outs & Hn3 & -> & Hs).
  inversion Hs as [|n4 lo4 mid4 hi4 q1 q2 HB4 HR4]; subst; [simpl in Hn3; lia|].
  destruct HB4 as [E [nm3 ->]]. subst.
  exists nm3. right. right. left. reflexivity.
Qed.

Lemma generated_staff_resolve_witness :
  exists nm l,
    _get_staffs_by_staff_id 3 (conn (make_data lcg_randint None 2024 (settled None)))
    = (Returned (Some l), conn (make_data lcg_randint None 2024 (settled None)), []) /\
    In nm l /\
    1200 <= Z.of_nat (List.length l) <= 80000.
Proof.
  destruct (generator_first_staff lcg_randint lcg_randint_range 2024) as [nm Hin].
  exists nm.
  exact (generated_staff_resolve Z lcg_randint lcg_randint_range 2024 None
           (mkNode 3 (Some 2) nm 3) eq_refl Hin eq_refl).
Defined.
